(** * Users and posts service (src/index.js): model and properties

    The service is an Express application over two Mongoose models, [User]
    and [Post], with Joi validation of request bodies.  Every route handler
    of src/index.js is embedded as a function from the store (the two
    collections) and the request to the response and the new store.

    What the handlers call in their libraries is modelled beside them:
    - Joi: presence, base type and rules of each key in schema order, then
      the keys the schema does not declare ([abortEarly] as in Joi's
      preferences; its default, which the handlers use, is [true]);
    - Mongoose and the MongoDB driver: casting of ids, numbers and query
      operands, [findById], [findOne], [find] with a filter, [save],
      [remove], [populate], and the unique indexes on [_id] and [email];
    - the part of these libraries that has no closed description here (the
      e-mail syntax, the numeric strings, regular expressions beyond
      literal prefixes, date parsing) is a field of [Externals], so every
      theorem holds for whatever those functions are.

    Strings are Stdlib strings (8-bit characters); case folding acts on the
    ASCII letters.  A handler is followed on its own, from the request to
    the response, with no other request in between. *)

From Stdlib Require Import List String Ascii Bool ZArith QArith Lia DecimalString.
From Stdlib Require Import Sorted Permutation.
Import ListNotations.
Close Scope Q_scope.
Open Scope string_scope.

(** ** JavaScript values *)

(** A JavaScript number: a finite value (kept exact), an infinity, or NaN. *)
Inductive jsnum : Type :=
| Finite (q : Q)
| PosInf
| NegInf
| NaN.

Definition num_of_Z (z : Z) : jsnum := Finite (inject_Z z).

(** [a <= b] and [a < b] on numbers, false as soon as one side is NaN. *)
Definition num_leb (a b : jsnum) : bool :=
  match a, b with
  | NaN, _ | _, NaN => false
  | NegInf, _ => true
  | _, PosInf => true
  | Finite p, Finite q => Qle_bool p q
  | _, _ => false
  end.

Definition num_ltb (a b : jsnum) : bool :=
  match a, b with
  | NaN, _ | _, NaN => false
  | Finite p, Finite q => negb (Qle_bool q p)
  | NegInf, NegInf => false
  | NegInf, _ => true
  | PosInf, _ => false
  | Finite _, PosInf => true
  | Finite _, NegInf => false
  end.

(** A parsed JSON value. *)
#[warnings="-register-all"]
Inductive json : Type :=
| JNull
| JBool (b : bool)
| JNum (n : jsnum)
| JStr (s : string)
| JArr (items : list json)
| JObj (props : list (string * json)).

(** [req.body] after [express.json()]: an object (the empty one when the
    request has no JSON body) or an array.  The properties of an object are
    listed in the order of [Object.keys]. *)
Inductive reqbody : Type :=
| BObj (props : list (string * json))
| BArr (items : list json).

Fixpoint assoc (k : string) (m : list (string * json)) : option json :=
  match m with
  | [] => None
  | (k', v) :: rest => if String.eqb k k' then Some v else assoc k rest
  end.

(** [req.body.k]; [None] is [undefined]. *)
Definition body_prop (b : reqbody) (k : string) : option json :=
  match b with
  | BObj m => assoc k m
  | BArr _ => None
  end.

(** ** Library functions taken as parameters *)

Record Externals : Type := {
  (** the syntax check behind [Joi.string().email()] *)
  joi_email : string -> bool;
  (** whether [Joi.number()] converts the string to a number *)
  joi_numeric : string -> bool;
  (** JavaScript's [Number(s)] *)
  js_Number : string -> jsnum;
  (** [new RegExp(source, 'i')] for a source that is not a literal prefix:
      [None] is a SyntaxError, [Some f] the test for a match *)
  regexp_other : string -> option (string -> bool);
  (** Mongoose's cast of a supplied value to Date (milliseconds), [None]
      when the cast fails *)
  cast_Date : json -> option Z;
  (** Joi's number pattern asks for a digit *)
  joi_numeric_empty : joi_numeric "" = false
}.

(** ** Joi *)

Inductive joi_base : Type := STRING | NUMBER.

Inductive joi_rule : Type :=
| rule_email
| rule_integer
| rule_min (limit : Z).

Record joi_schema : Type := {
  base : joi_base;
  rules : list joi_rule;
  presence_required : bool
}.

(** The schema builders, named as in Joi's chain
    ([Joi.string().email().required()] reads
    [Joi.required (Joi.email Joi.string)]). *)
Module Joi.

Definition string : joi_schema :=
  {| base := STRING; rules := []; presence_required := false |}.
Definition number : joi_schema :=
  {| base := NUMBER; rules := []; presence_required := false |}.
Definition add_rule (r : joi_rule) (s : joi_schema) : joi_schema :=
  {| base := base s; rules := rules s ++ [r]; presence_required := presence_required s |}.
Definition email := add_rule rule_email.
Definition integer := add_rule rule_integer.
Definition min (limit : Z) := add_rule (rule_min limit).
Definition required (s : joi_schema) : joi_schema :=
  {| base := base s; rules := rules s; presence_required := true |}.

End Joi.

(** [Joi.object({...})]: the keys in the order they are written. *)
Definition joi_object : Type := list (string * joi_schema).

(** src/index.js, lines 35-42. *)
Definition userValidationSchema : joi_object :=
  [ ("userName", Joi.required Joi.string);
    ("email", Joi.required (Joi.email Joi.string));
    ("password", Joi.required Joi.string);
    ("age", Joi.required (Joi.min 0 (Joi.integer Joi.number)));
    ("gender", Joi.required Joi.string);
    ("phone", Joi.required Joi.string) ].

(** src/index.js, lines 44-48. *)
Definition postValidationSchema : joi_object :=
  [ ("title", Joi.required Joi.string);
    ("content", Joi.required Joi.string);
    ("userID", Joi.required Joi.string) ].

(** One entry of [error.details]. *)
Record detail : Type := {
  message : string;
  dtype : string;
  dpath : string
}.

Definition dquote : string := String (ascii_of_nat 34) EmptyString.
Definition label (k : string) : string := dquote ++ k ++ dquote.
Definition report (k ty text : string) : detail :=
  {| message := label k ++ text; dtype := ty; dpath := k |}.

Definition Z_to_string (z : Z) : string := NilZero.string_of_int (Z.to_int z).

Definition MAX_SAFE_INTEGER : Z := 2 ^ 53 - 1.

Definition is_integer (q : Q) : bool := (Zpos (Qden (Qred q)) =? 1)%Z.

Definition unsafe (q : Q) : bool :=
  negb (Qle_bool q (inject_Z MAX_SAFE_INTEGER)) || negb (Qle_bool (inject_Z (- MAX_SAFE_INTEGER)) q).

Section JoiValidation.

Variable L : Externals.

Definition string_rule_error (k s : string) (r : joi_rule) : option detail :=
  match r with
  | rule_email =>
      if joi_email L s then None
      else Some (report k "string.email" " must be a valid email")
  | _ => None
  end.

Definition number_rule_error (k : string) (q : Q) (r : joi_rule) : option detail :=
  match r with
  | rule_integer =>
      if is_integer q then None
      else Some (report k "number.integer" " must be an integer")
  | rule_min limit =>
      if Qle_bool (inject_Z limit) q then None
      else Some (report k "number.min"
                   (" must be greater than or equal to " ++ Z_to_string limit))
  | rule_email => None
  end.

(** The rules of a key run in the order they were added; with [abortEarly]
    the first failure ends the validation. *)
Fixpoint run_rules (abortEarly : bool) (check : joi_rule -> option detail)
  (rs : list joi_rule) : list detail :=
  match rs with
  | [] => []
  | r :: rest =>
      match check r with
      | None => run_rules abortEarly check rest
      | Some d => if abortEarly then [d] else d :: run_rules abortEarly check rest
      end
  end.

(** [Joi.number()] with the default [convert]: a numeric string stands for
    its number, any other value that is not a number stays as it is. *)
Definition coerce_number (v : json) : option jsnum :=
  match v with
  | JNum n => Some n
  | JStr s => if joi_numeric L s then Some (js_Number L s) else None
  | _ => None
  end.

(** One key: presence, then the base type (its failure always ends the
    key), then the rules. *)
Definition validate_value (abortEarly : bool) (k : string) (sch : joi_schema)
  (v : option json) : list detail :=
  match v with
  | None =>
      if presence_required sch then [report k "any.required" " is required"] else []
  | Some v =>
      match base sch with
      | STRING =>
          match v with
          | JStr EmptyString => [report k "string.empty" " is not allowed to be empty"]
          | JStr s => run_rules abortEarly (string_rule_error k s) (rules sch)
          | _ => [report k "string.base" " must be a string"]
          end
      | NUMBER =>
          match coerce_number v with
          | Some PosInf | Some NegInf => [report k "number.infinity" " cannot be infinity"]
          | Some (Finite q) =>
              if unsafe q then [report k "number.unsafe" " must be a safe number"]
              else run_rules abortEarly (number_rule_error k q) (rules sch)
          | Some NaN | None => [report k "number.base" " must be a number"]
          end
      end
  end.

Fixpoint validate_keys (abortEarly : bool) (keys : joi_object)
  (m : list (string * json)) : list detail :=
  match keys with
  | [] => []
  | (k, sch) :: rest =>
      match validate_value abortEarly k sch (assoc k m) with
      | [] => validate_keys abortEarly rest m
      | errs => if abortEarly then errs else errs ++ validate_keys abortEarly rest m
      end
  end.

Definition declared (keys : joi_object) (k : string) : bool :=
  existsb (String.eqb k) (map fst keys).

(** The keys of the value that the schema does not declare, in the order of
    the value ([allowUnknown] is false by default). *)
Fixpoint unknown_keys (abortEarly : bool) (keys : joi_object)
  (m : list (string * json)) : list detail :=
  match m with
  | [] => []
  | (k, _) :: rest =>
      if declared keys k then unknown_keys abortEarly keys rest
      else
        let d := report k "object.unknown" " is not allowed" in
        if abortEarly then [d] else d :: unknown_keys abortEarly keys rest
  end.

Definition validate_object (abortEarly : bool) (keys : joi_object)
  (b : reqbody) : list detail :=
  match b with
  | BArr _ => [report "value" "object.base" " must be of type object"]
  | BObj m =>
      match validate_keys abortEarly keys m with
      | [] => unknown_keys abortEarly keys m
      | errs => if abortEarly then errs else errs ++ unknown_keys abortEarly keys m
      end
  end.

(** [schema.validate(req.body)]: the [error] of the result, [None] when the
    body is valid.  The preferences are Joi's defaults. *)
Definition validate (keys : joi_object) (b : reqbody) : option (list detail) :=
  match validate_object true keys b with
  | [] => None
  | details => Some details
  end.

End JoiValidation.

(** ** ObjectId *)

(** An ObjectId, written as [toString()] prints it: 24 lower-case
    hexadecimal digits. *)
Definition ObjectId : Type := string.

Definition code (c : ascii) : nat := nat_of_ascii c.

Definition between (lo hi : nat) (c : ascii) : bool :=
  (lo <=? code c)%nat && (code c <=? hi)%nat.

Definition is_lower_hex (c : ascii) : bool := between 48 57 c || between 97 102 c.
Definition is_hex (c : ascii) : bool := is_lower_hex c || between 65 70 c.

(** ASCII lower case of a character. *)
Definition to_lower (c : ascii) : ascii :=
  if between 65 90 c then ascii_of_nat (code c + 32) else c.

Fixpoint lowercase (s : string) : string :=
  match s with
  | EmptyString => EmptyString
  | String c rest => String (to_lower c) (lowercase rest)
  end.

Fixpoint all_chars (p : ascii -> bool) (s : string) : bool :=
  match s with
  | EmptyString => true
  | String c rest => p c && all_chars p rest
  end.

Definition hex_digit (n : nat) : ascii :=
  if (n <? 10)%nat then ascii_of_nat (48 + n) else ascii_of_nat (87 + n).

Fixpoint hex_of_bytes (s : string) : string :=
  match s with
  | EmptyString => EmptyString
  | String c rest =>
      String (hex_digit (code c / 16)) (String (hex_digit (code c mod 16)) (hex_of_bytes rest))
  end.

Definition is_ObjectId (o : ObjectId) : bool :=
  (String.length o =? 24)%nat && all_chars is_lower_hex o.

(** Mongoose's cast of a string to ObjectId, as the driver of the Mongoose 5
    line builds one: from 24 hexadecimal digits, or from a string of 12
    characters taken as the 12 bytes.  [None] is the CastError. *)
Definition castObjectId (s : string) : option ObjectId :=
  if (String.length s =? 24)%nat && all_chars is_hex s then Some (lowercase s)
  else if (String.length s =? 12)%nat then Some (hex_of_bytes s)
  else None.

(** ** Documents and the store *)

(** src/index.js, lines 15-22 ([_id] is added by Mongoose). *)
Record User : Type := {
  User_id : ObjectId;
  userName : string;
  email : string;
  password : string;
  age : jsnum;
  gender : string;
  phone : string
}.

(** src/index.js, lines 26-31; a date is its time in milliseconds. *)
Record Post : Type := {
  Post_id : ObjectId;
  title : string;
  content : string;
  userID : ObjectId;
  date : Z
}.

Inductive schema_type : Type :=
| SString
| SNumber
| SDate
| SObjectId.

Record schema_path : Type := {
  ptype : schema_type;
  unique : bool;
  ref : option string
}.

Definition plain_path (t : schema_type) : schema_path :=
  {| ptype := t; unique := false; ref := None |}.

Definition mongoose_schema : Type := list (string * schema_path).

(** The paths that src/index.js declares, lines 15-22 and 26-31. *)
Definition userSchema : mongoose_schema :=
  [ ("userName", plain_path SString);
    ("email", {| ptype := SString; unique := true; ref := None |});
    ("password", plain_path SString);
    ("age", plain_path SNumber);
    ("gender", plain_path SString);
    ("phone", plain_path SString) ].

Definition postSchema : mongoose_schema :=
  [ ("title", plain_path SString);
    ("content", plain_path SString);
    ("userID", {| ptype := SObjectId; unique := false; ref := Some "User" |});
    ("date", plain_path SDate) ].

(** The two collections, each in insertion order. *)
Record store : Type := {
  users : list User;
  posts : list Post
}.

(** What the request finds around it: the ObjectId the driver generates for
    a new document, and [Date.now()]. *)
Record env : Type := {
  newId : ObjectId;
  now : Z
}.

(** An awaited call: its value, or the rejection that the handler's [catch]
    receives. *)
Inductive result (A : Type) : Type :=
| Ok (a : A)
| Throw.
Arguments Ok {A} a.
Arguments Throw {A}.

Definition has_id_User (o : ObjectId) (u : User) : bool := String.eqb (User_id u) o.
Definition has_id_Post (o : ObjectId) (p : Post) : bool := String.eqb (Post_id p) o.

(** [Model.findById(id)]: the id is cast first. *)
Definition User_findById (st : store) (id : string) : result (option User) :=
  match castObjectId id with
  | None => Throw
  | Some o => Ok (find (has_id_User o) (users st))
  end.

Definition Post_findById (st : store) (id : string) : result (option Post) :=
  match castObjectId id with
  | None => Throw
  | Some o => Ok (find (has_id_Post o) (posts st))
  end.

(** [User.findOne({ email: v })].  The handler calls it after validation,
    when [v] is a string; any other operand is handed to the [catch]. *)
Definition User_findOne_email (st : store) (v : option json) : result (option User) :=
  match v with
  | Some (JStr s) => Ok (find (fun u => String.eqb (email u) s) (users st))
  | _ => Throw
  end.

(** Insertion of a new user: the unique indexes on [_id] and on [email]
    (line 17) reject a duplicate key. *)
Definition User_insert (st : store) (u : User) : result store :=
  if existsb (has_id_User (User_id u)) (users st)
     || existsb (fun u' => String.eqb (email u') (email u)) (users st)
  then Throw
  else Ok {| users := users st ++ [u]; posts := posts st |}.

Definition Post_insert (st : store) (p : Post) : result store :=
  if existsb (has_id_Post (Post_id p)) (posts st) then Throw
  else Ok {| users := users st; posts := posts st ++ [p] |}.

(** The first document that [sel] selects is dropped, or replaced. *)
Fixpoint remove_first {A : Type} (sel : A -> bool) (l : list A) : list A :=
  match l with
  | [] => []
  | x :: rest => if sel x then rest else x :: remove_first sel rest
  end.

Fixpoint replace_first {A : Type} (sel : A -> bool) (y : A) (l : list A) : list A :=
  match l with
  | [] => []
  | x :: rest => if sel x then y :: rest else x :: replace_first sel y rest
  end.

(** [post.remove()]. *)
Definition Post_remove (st : store) (p : Post) : store :=
  {| users := users st; posts := remove_first (has_id_Post (Post_id p)) (posts st) |}.

(** [post.save()] of a document that was loaded from the collection. *)
Definition Post_save (st : store) (p : Post) : store :=
  {| users := users st; posts := replace_first (has_id_Post (Post_id p)) p (posts st) |}.

(** ** Documents built from a request body *)

Definition bind {A B : Type} (x : option A) (k : A -> option B) : option B :=
  match x with
  | Some a => k a
  | None => None
  end.

Notation "x <- e ;; k" := (bind e (fun x => k))
  (at level 61, e at next level, right associativity).

(** The casts below are reached with a body that has passed validation: a
    string path then holds a string and [age] a number or a numeric string.
    A value of another shape is reported as a failed cast ([None]). *)
Definition cast_String (v : json) : option string :=
  match v with
  | JStr s => Some s
  | _ => None
  end.

Definition cast_ObjectId (v : json) : option ObjectId :=
  match v with
  | JStr s => castObjectId s
  | _ => None
  end.

(** A path that the body leaves out keeps its value. *)
Definition assign {A : Type} (cast : json -> option A) (v : option json) (old : A) : option A :=
  match v with
  | None => Some old
  | Some x => cast x
  end.

Section Documents.

Variable L : Externals.

Definition cast_Number (v : json) : option jsnum :=
  match v with
  | JNum NaN => None
  | JNum n => Some n
  | JStr EmptyString => None
  | JStr s => match js_Number L s with
              | NaN => None
              | n => Some n
              end
  | _ => None
  end.

(** [new User(req.body)], line 58; [None] when a cast fails, which
    [save()] turns into a rejection. *)
Definition new_User (e : env) (b : reqbody) : option User :=
  n <- bind (body_prop b "userName") cast_String ;;
  m <- bind (body_prop b "email") cast_String ;;
  p <- bind (body_prop b "password") cast_String ;;
  a <- bind (body_prop b "age") cast_Number ;;
  g <- bind (body_prop b "gender") cast_String ;;
  ph <- bind (body_prop b "phone") cast_String ;;
  Some {| User_id := newId e; userName := n; email := m; password := p;
          age := a; gender := g; phone := ph |}.

(** The update of [findByIdAndUpdate(id, req.body)], line 74, applied to
    the document found. *)
Definition User_set (b : reqbody) (u : User) : option User :=
  n <- assign cast_String (body_prop b "userName") (userName u) ;;
  m <- assign cast_String (body_prop b "email") (email u) ;;
  p <- assign cast_String (body_prop b "password") (password u) ;;
  a <- assign cast_Number (body_prop b "age") (age u) ;;
  g <- assign cast_String (body_prop b "gender") (gender u) ;;
  ph <- assign cast_String (body_prop b "phone") (phone u) ;;
  Some {| User_id := User_id u; userName := n; email := m; password := p;
          age := a; gender := g; phone := ph |}.

(** [new Post(req.body)], line 166: [date] takes its default, [Date.now],
    when the body has no [date]. *)
Definition new_Post (e : env) (b : reqbody) : option Post :=
  t <- bind (body_prop b "title") cast_String ;;
  c <- bind (body_prop b "content") cast_String ;;
  u <- bind (body_prop b "userID") cast_ObjectId ;;
  d <- match body_prop b "date" with
       | None => Some (now e)
       | Some v => cast_Date L v
       end ;;
  Some {| Post_id := newId e; title := t; content := c; userID := u; date := d |}.

(** [post.set(req.body)], line 207. *)
Definition Post_set (b : reqbody) (p : Post) : option Post :=
  t <- assign cast_String (body_prop b "title") (title p) ;;
  c <- assign cast_String (body_prop b "content") (content p) ;;
  u <- assign cast_ObjectId (body_prop b "userID") (userID p) ;;
  d <- assign (cast_Date L) (body_prop b "date") (date p) ;;
  Some {| Post_id := Post_id p; title := t; content := c; userID := u; date := d |}.

(** [User.findByIdAndUpdate(id, req.body, { new: true })]: the document
    after the update, [None] when no user has the id.  The unique index
    rejects an email that another user holds. *)
Definition User_findByIdAndUpdate (st : store) (id : string) (b : reqbody)
  : result (option User * store) :=
  match castObjectId id with
  | None => Throw
  | Some o =>
      match find (has_id_User o) (users st) with
      | None => Ok (None, st)
      | Some u =>
          match User_set b u with
          | None => Throw
          | Some u' =>
              if existsb (fun x => negb (has_id_User o x) && String.eqb (email x) (email u'))
                   (users st)
              then Throw
              else Ok (Some u',
                       {| users := replace_first (has_id_User o) u' (users st);
                          posts := posts st |})
          end
      end
  end.

(** [User.findByIdAndDelete(id)]. *)
Definition User_findByIdAndDelete (st : store) (id : string) : result (option User * store) :=
  match castObjectId id with
  | None => Throw
  | Some o =>
      match find (has_id_User o) (users st) with
      | None => Ok (None, st)
      | Some u =>
          Ok (Some u, {| users := remove_first (has_id_User o) (users st); posts := posts st |})
      end
  end.

End Documents.

(** ** Regular expressions *)

(** The sources read here in full are [^] followed by literal characters
    and dots; every other source goes to [regexp_other]. *)
Inductive atom : Type :=
| Lit (c : ascii)
| AnyChar.

Definition metacharacters : string := "\^$.*+?()[]{}|".

Fixpoint mem_char (c : ascii) (s : string) : bool :=
  match s with
  | EmptyString => false
  | String c' rest => Ascii.eqb c c' || mem_char c rest
  end.

(** A printable ASCII character that stands for itself in a pattern. *)
Definition plain (c : ascii) : bool := between 32 126 c && negb (mem_char c metacharacters).

Fixpoint atoms_of (s : string) : option (list atom) :=
  match s with
  | EmptyString => Some []
  | String c rest =>
      if plain c then option_map (cons (Lit c)) (atoms_of rest)
      else if Ascii.eqb c "."%char then option_map (cons AnyChar) (atoms_of rest)
      else None
  end.

(** With the flag [i] a literal matches in either case; a dot matches any
    character but the line feed. *)
Definition atom_matches (a : atom) (c : ascii) : bool :=
  match a with
  | Lit l => Ascii.eqb (to_lower l) (to_lower c)
  | AnyChar => negb (Ascii.eqb c (ascii_of_nat 10))
  end.

(** The atoms match at the start of the string. *)
Fixpoint match_atoms (l : list atom) (s : string) : bool :=
  match l with
  | [] => true
  | a :: rest =>
      match s with
      | EmptyString => false
      | String c s' => atom_matches a c && match_atoms rest s'
      end
  end.

Record RegExp : Type := {
  source : string;
  test : string -> bool
}.

(** [new RegExp(src, 'i')]; [None] is the SyntaxError. *)
Definition RegExp_i (L : Externals) (src : string) : option RegExp :=
  match src with
  | String "^"%char rest =>
      match atoms_of rest with
      | Some l => Some {| source := src; test := match_atoms l |}
      | None => option_map (Build_RegExp src) (regexp_other L src)
      end
  | _ => option_map (Build_RegExp src) (regexp_other L src)
  end.

(** A template literal prints [undefined] for a value that is absent. *)
Definition template (v : option string) : string :=
  match v with
  | Some s => s
  | None => "undefined"
  end.

(** ** Queries on users *)

(** The conditions the handlers put on [userName] ([$regex]) and on [age]
    ([$lt], [$lte], [$gte]); an operand is the query-string value, [None]
    when the parameter is absent. *)
Inductive string_cond : Type :=
| op_regex (re : RegExp).

Inductive number_cond : Type :=
| op_lt (v : option string)
| op_lte (v : option string)
| op_gte (v : option string).

Record user_filter : Type := {
  on_userName : list string_cond;
  on_age : list number_cond
}.

(** An operand of a numeric path after the cast, as the server receives it:
    [undefined] is sent as null, and the empty string is cast to null. *)
Inductive operand : Type :=
| Null
| Num (n : jsnum).

Inductive comparator : Type := LT | LTE | GTE.

Section Queries.

Variable L : Externals.

(** Mongoose's cast of an operand of a Number path; a string that is not a
    number is a CastError. *)
Definition castNumber (v : option string) : result operand :=
  match v with
  | None => Ok Null
  | Some EmptyString => Ok Null
  | Some s => match js_Number L s with
              | NaN => Throw
              | n => Ok (Num n)
              end
  end.

Definition cast_number_cond (c : number_cond) : result (comparator * operand) :=
  match c with
  | op_lt v => match castNumber v with Ok o => Ok (LT, o) | Throw => Throw end
  | op_lte v => match castNumber v with Ok o => Ok (LTE, o) | Throw => Throw end
  | op_gte v => match castNumber v with Ok o => Ok (GTE, o) | Throw => Throw end
  end.

Fixpoint cast_number_conds (cs : list number_cond) : result (list (comparator * operand)) :=
  match cs with
  | [] => Ok []
  | c :: rest =>
      match cast_number_cond c, cast_number_conds rest with
      | Ok x, Ok xs => Ok (x :: xs)
      | _, _ => Throw
      end
  end.

(** A number is compared with a number; against null no number is less,
    less or equal, or greater or equal. *)
Definition compare_holds (a : jsnum) (c : comparator * operand) : bool :=
  match c with
  | (_, Null) => false
  | (LT, Num n) => num_ltb a n
  | (LTE, Num n) => num_leb a n
  | (GTE, Num n) => num_leb n a
  end.

Definition string_cond_holds (s : string) (c : string_cond) : bool :=
  match c with
  | op_regex re => test re s
  end.

(** [User.find(filter)]: the users, in collection order, that satisfy every
    condition of the filter. *)
Definition User_find (st : store) (f : user_filter) : result (list User) :=
  match cast_number_conds (on_age f) with
  | Throw => Throw
  | Ok cs =>
      Ok (filter (fun u => forallb (string_cond_holds (userName u)) (on_userName f)
                           && forallb (compare_holds (age u)) cs)
            (users st))
  end.

End Queries.

(** ** Populate *)

Inductive document : Type :=
| UserDoc (u : User)
| PostDoc (p : Post).

Fixpoint schema_path_of (path : string) (s : mongoose_schema) : option schema_path :=
  match s with
  | [] => None
  | (k, p) :: rest => if String.eqb path k then Some p else schema_path_of path rest
  end.

(** The model a path refers to, when the schema declares the path with a
    [ref]. *)
Definition ref_of (s : mongoose_schema) (path : string) : option string :=
  match schema_path_of path s with
  | Some p => ref p
  | None => None
  end.

Definition findOne_in (st : store) (model : string) (o : ObjectId) : option document :=
  if String.eqb model "User" then option_map UserDoc (find (has_id_User o) (users st))
  else if String.eqb model "Post" then option_map PostDoc (find (has_id_Post o) (posts st))
  else None.

(** [populate(path)] on a document of schema [s] whose ObjectId paths are
    read by [id_at]: the populated paths with the documents found.  A path
    that the schema does not declare as a reference is left alone (the
    Mongoose 5 line has no strictPopulate). *)
Definition populate (st : store) (s : mongoose_schema) (id_at : string -> option ObjectId)
  (path : string) : list (string * option document) :=
  match ref_of s path with
  | None => []
  | Some model =>
      match id_at path with
      | None => []
      | Some o => [(path, findOne_in st model o)]
      end
  end.

(** A user document has no ObjectId path besides [_id]; a post has
    [userID]. *)
Definition User_id_at (u : User) (path : string) : option ObjectId := None.

Definition Post_id_at (p : Post) (path : string) : option ObjectId :=
  if String.eqb path "userID" then Some (userID p) else None.

(** ** Sorting *)

(** [sort({ date: -1 })]: the latest date first.  Posts with equal dates
    keep their collection order here; the server promises no order among
    them. *)
Fixpoint insert_by_date (p : Post) (l : list Post) : list Post :=
  match l with
  | [] => [p]
  | q :: rest =>
      if (date q <? date p)%Z then p :: q :: rest else q :: insert_by_date p rest
  end.

Definition sort_date_descending (l : list Post) : list Post :=
  fold_right insert_by_date [] l.

(** ** Responses *)

Inductive payload : Type :=
| Text (s : string)
| Doc (d : document)
| Users (l : list User)
| Posts (l : list Post)
| Populated (d : document) (paths : list (string * option document))
| PopulatedList (l : list (document * list (string * option document)))
| Empty.

Record response : Type := {
  status : Z;
  sent : payload
}.

(** [res.send(x)] answers 200; [res.status(n).send(text)] answers [n]. *)
Definition send (x : payload) : response := {| status := 200; sent := x |}.
Definition send_status (n : Z) (text : string) : response := {| status := n; sent := Text text |}.

(** Every handler's [catch] block. *)
Definition server_error : response := send_status 500 "Server error".

(** [res.status(400).send(error.details[0].message)]. *)
Definition validation_failure (details : list detail) : response :=
  match details with
  | d :: _ => send_status 400 (message d)
  | [] => server_error
  end.

(** ** The route handlers *)

Section Handlers.

Variable L : Externals.

(** [app.post('/api/users/signup')], lines 50-66. *)
Definition post_api_users_signup (e : env) (st : store) (body : reqbody) : response * store :=
  match validate L userValidationSchema body with
  | Some details => (validation_failure details, st)
  | None =>
      match User_findOne_email st (body_prop body "email") with
      | Throw => (server_error, st)
      | Ok (Some _) => (send_status 400 "Email already exists", st)
      | Ok None =>
          match new_User L e body with
          | None => (server_error, st)
          | Some user =>
              match User_insert st user with
              | Throw => (server_error, st)
              | Ok st' => (send (Doc (UserDoc user)), st')
              end
          end
      end
  end.

(** [app.put('/api/users/:id')], lines 69-82. *)
Definition put_api_users_id (st : store) (id : string) (body : reqbody) : response * store :=
  match validate L userValidationSchema body with
  | Some details => (validation_failure details, st)
  | None =>
      match User_findByIdAndUpdate L st id body with
      | Throw => (server_error, st)
      | Ok (None, _) => (send_status 404 "User not found", st)
      | Ok (Some user, st') => (send (Doc (UserDoc user)), st')
      end
  end.

(** [app.delete('/api/users/:id')], lines 85-95. *)
Definition delete_api_users_id (st : store) (id : string) : response * store :=
  match User_findByIdAndDelete st id with
  | Throw => (server_error, st)
  | Ok (None, _) => (send_status 404 "User not found", st)
  | Ok (Some user, st') => (send (Doc (UserDoc user)), st')
  end.

(** The two clauses of the search filter, lines 103-104. *)
Definition userName_clause (re : RegExp) : list string_cond := [op_regex re].
Definition age_clause (maxAge : option string) : list number_cond := [op_lt maxAge].

(** [app.get('/api/users/search')], lines 98-112. *)
Definition get_api_users_search (st : store) (nameStartsWith maxAge : option string) : response :=
  match RegExp_i L ("^" ++ template nameStartsWith) with
  | None => server_error
  | Some re =>
      match User_find L st {| on_userName := userName_clause re; on_age := age_clause maxAge |} with
      | Throw => server_error
      | Ok found => send (Users found)
      end
  end.

(** [app.get('/api/users/search/age')], lines 115-128. *)
Definition get_api_users_search_age (st : store) (minAge maxAge : option string) : response :=
  match User_find L st {| on_userName := []; on_age := [op_gte minAge; op_lte maxAge] |} with
  | Throw => server_error
  | Ok found => send (Users found)
  end.

(** [app.get('/api/users')], lines 131-139. *)
Definition get_api_users (st : store) : response := send (Users (users st)).

(** [app.get('/api/users/:id/profile')], lines 142-153. *)
Definition get_api_users_id_profile (st : store) (id : string) : response :=
  match User_findById st id with
  | Throw => server_error
  | Ok None => send_status 404 "User not found"
  | Ok (Some _) =>
      match User_findById st id with
      | Throw => server_error
      | Ok None => send Empty
      | Ok (Some user) =>
          send (Populated (UserDoc user) (populate st userSchema (User_id_at user) "posts"))
      end
  end.

(** [app.post('/api/posts')], lines 158-174.  After the validation
    [req.body.userID] is a string; the last branch stands for the other
    values and is not taken. *)
Definition post_api_posts (e : env) (st : store) (body : reqbody) : response * store :=
  match validate L postValidationSchema body with
  | Some details => (validation_failure details, st)
  | None =>
      match body_prop body "userID" with
      | Some (JStr id) =>
          match User_findById st id with
          | Throw => (server_error, st)
          | Ok None => (send_status 404 "User not found", st)
          | Ok (Some _) =>
              match new_Post L e body with
              | None => (server_error, st)
              | Some post =>
                  match Post_insert st post with
                  | Throw => (server_error, st)
                  | Ok st' => (send (Doc (PostDoc post)), st')
                  end
              end
          end
      | _ => (server_error, st)
      end
  end.

(** [post.userID.toString() !== req.body.userID]. *)
Definition not_owner (post : Post) (body : reqbody) : bool :=
  match body_prop body "userID" with
  | Some (JStr s) => negb (String.eqb (userID post) s)
  | _ => true
  end.

(** [app.delete('/api/posts/:id')], lines 177-192. *)
Definition delete_api_posts_id (st : store) (id : string) (body : reqbody) : response * store :=
  match Post_findById st id with
  | Throw => (server_error, st)
  | Ok None => (send_status 404 "Post not found", st)
  | Ok (Some post) =>
      if not_owner post body
      then (send_status 403 "You are not authorized to delete this post", st)
      else (send (Doc (PostDoc post)), Post_remove st post)
  end.

(** [app.put('/api/posts/:id')], lines 195-215. *)
Definition put_api_posts_id (st : store) (id : string) (body : reqbody) : response * store :=
  match validate L postValidationSchema body with
  | Some details => (validation_failure details, st)
  | None =>
      match Post_findById st id with
      | Throw => (server_error, st)
      | Ok None => (send_status 404 "Post not found", st)
      | Ok (Some post) =>
          if not_owner post body
          then (send_status 403 "You are not authorized to update this post", st)
          else
            match Post_set L body post with
            | None => (server_error, st)
            | Some post' => (send (Doc (PostDoc post')), Post_save st post')
            end
      end
  end.

(** [app.get('/api/posts')], lines 218-226. *)
Definition get_api_posts (st : store) : response := send (Posts (posts st)).

(** [app.get('/api/posts/withUsers')], lines 229-237. *)
Definition get_api_posts_withUsers (st : store) : response :=
  send (PopulatedList
          (map (fun p => (PostDoc p, populate st postSchema (Post_id_at p) "userID")) (posts st))).

(** [app.get('/api/posts/sort')], lines 240-248. *)
Definition get_api_posts_sort (st : store) : response :=
  send (Posts (sort_date_descending (posts st))).

End Handlers.

(** ** The words of the specification *)

(** [name] starts with [prefix], compared without regard to case. *)
Definition starts_with_ignoring_case (prefix name : string) : Prop :=
  exists rest, lowercase name = lowercase prefix ++ rest.

(** The order of numbers, as a proposition. *)
Definition num_le (a b : jsnum) : Prop :=
  match a, b with
  | Finite p, Finite q => (p <= q)%Q
  | NegInf, (Finite _ | PosInf | NegInf) => True
  | (Finite _ | PosInf), PosInf => True
  | _, _ => False
  end.

Definition num_lt (a b : jsnum) : Prop :=
  match a, b with
  | Finite p, Finite q => (p < q)%Q
  | NegInf, (Finite _ | PosInf) => True
  | Finite _, PosInf => True
  | _, _ => False
  end.

(** A query-string value that Mongoose casts to the number [n]. *)
Definition casts_to_number (L : Externals) (s : string) (n : jsnum) : Prop :=
  s <> "" /\ js_Number L s = n /\ n <> NaN.

(** No two users share an email. *)
Definition emails_unique (st : store) : Prop := NoDup (map email (users st)).

(** ** An instance of the library parameters

    It reads decimal integers as numbers, takes a string with an [@] for an
    e-mail address, and knows no regular expression beyond the literal
    prefixes. *)

Fixpoint digits_value (s : string) (acc : Z) : option Z :=
  match s with
  | EmptyString => Some acc
  | String c rest =>
      if between 48 57 c then digits_value rest (10 * acc + Z.of_nat (code c - 48))
      else None
  end.

Definition decimal (s : string) : option Z :=
  match s with
  | EmptyString => None
  | String "-"%char EmptyString => None
  | String "-"%char rest => option_map Z.opp (digits_value rest 0)
  | _ => digits_value s 0
  end.

Definition decimal_Number (s : string) : jsnum :=
  match s with
  | EmptyString => num_of_Z 0
  | _ => match decimal s with
         | Some z => num_of_Z z
         | None => NaN
         end
  end.

Definition decimal_externals : Externals :=
  {| joi_email := mem_char "@"%char;
     joi_numeric := fun s => match decimal s with Some _ => true | None => false end;
     js_Number := decimal_Number;
     regexp_other := fun _ => None;
     cast_Date := fun _ => None;
     joi_numeric_empty := eq_refl |}.

(** ** Sample data *)

Definition id_a : ObjectId := "aaaaaaaaaaaaaaaaaaaaaaaa".
Definition id_b : ObjectId := "bbbbbbbbbbbbbbbbbbbbbbbb".
Definition id_c : ObjectId := "cccccccccccccccccccccccc".
Definition id_d : ObjectId := "dddddddddddddddddddddddd".

Definition user_of (id : ObjectId) (name mail : string) (years : Z) : User :=
  {| User_id := id; userName := name; email := mail; password := "secret";
     age := num_of_Z years; gender := "f"; phone := "555" |}.

Definition alice : User := user_of id_a "Alice" "alice@example.com" 30.
Definition albert : User := user_of id_b "ALBERT" "albert@example.com" 19.
Definition balrog : User := user_of id_c "Balrog" "balrog@example.com" 31.

Definition post_of_alice : Post :=
  {| Post_id := id_d; title := "Hello"; content := "First post"; userID := id_a; date := 1000 |}.

Definition sample_store : store :=
  {| users := [alice; albert; balrog]; posts := [post_of_alice] |}.

Definition sample_env : env := {| newId := "eeeeeeeeeeeeeeeeeeeeeeee"; now := 2000 |}.

Definition user_body (name mail : string) (years : Z) : reqbody :=
  BObj [ ("userName", JStr name); ("email", JStr mail); ("password", JStr "secret");
         ("age", JNum (num_of_Z years)); ("gender", JStr "f"); ("phone", JStr "555") ].

Definition post_body (t c owner : string) : reqbody :=
  BObj [ ("title", JStr t); ("content", JStr c); ("userID", JStr owner) ].

(** Bodies with several violations at once, and a post body with a date. *)
Definition bad_user_body : reqbody :=
  BObj [ ("age", JNum (Finite (-3 # 2))); ("email", JStr "nobody") ].

Definition bad_post_body : reqbody :=
  BObj [ ("title", JStr EmptyString); ("date", JStr "2020-01-01") ].

Definition dated_post_props : list (string * json) :=
  [ ("title", JStr "T"); ("content", JStr "C"); ("userID", JStr id_a);
    ("date", JStr "1999-12-31") ].

(** ** The service as a whole *)

(** One constructor for each route that src/index.js registers, with the
    parts of the request that its handler reads. *)
Inductive request : Type :=
| POST_api_users_signup (body : reqbody)
| PUT_api_users_id (id : string) (body : reqbody)
| DELETE_api_users_id (id : string)
| GET_api_users_search (nameStartsWith maxAge : option string)
| GET_api_users_search_age (minAge maxAge : option string)
| GET_api_users
| GET_api_users_id_profile (id : string)
| POST_api_posts (body : reqbody)
| DELETE_api_posts_id (id : string) (body : reqbody)
| PUT_api_posts_id (id : string) (body : reqbody)
| GET_api_posts
| GET_api_posts_withUsers
| GET_api_posts_sort.

(** The handler of the route runs; a GET handler writes nothing. *)
Definition handle (L : Externals) (e : env) (st : store) (r : request) : response * store :=
  match r with
  | POST_api_users_signup body => post_api_users_signup L e st body
  | PUT_api_users_id id body => put_api_users_id L st id body
  | DELETE_api_users_id id => delete_api_users_id st id
  | GET_api_users_search nameStartsWith maxAge =>
      (get_api_users_search L st nameStartsWith maxAge, st)
  | GET_api_users_search_age minAge maxAge =>
      (get_api_users_search_age L st minAge maxAge, st)
  | GET_api_users => (get_api_users st, st)
  | GET_api_users_id_profile id => (get_api_users_id_profile st id, st)
  | POST_api_posts body => post_api_posts L e st body
  | DELETE_api_posts_id id body => delete_api_posts_id st id body
  | PUT_api_posts_id id body => put_api_posts_id L st id body
  | GET_api_posts => (get_api_posts st, st)
  | GET_api_posts_withUsers => (get_api_posts_withUsers st, st)
  | GET_api_posts_sort => (get_api_posts_sort st, st)
  end.

(** The database before the first request. *)
Definition empty_store : store := {| users := []; posts := [] |}.

(** The stores that the service can be in: the empty one, and the store
    that a request leaves behind. *)
Inductive reachable (L : Externals) : store -> Prop :=
| reachable_empty : reachable L empty_store
| reachable_handle : forall (e : env) (st : store) (r : request),
    reachable L st -> reachable L (snd (handle L e st r)).

(** The age that the user validation admits: a whole number from 0 to the
    largest safe integer. *)
Definition whole_age (a : jsnum) : Prop :=
  exists (q : Q) (z : Z),
    a = Finite q /\ (q == inject_Z z)%Q /\ (0 <= z <= MAX_SAFE_INTEGER)%Z.

Definition admitted_user (L : Externals) (u : User) : Prop :=
  userName u <> "" /\ email u <> "" /\ joi_email L (email u) = true
  /\ password u <> "" /\ whole_age (age u) /\ gender u <> "" /\ phone u <> "".

Definition admitted_post (p : Post) : Prop :=
  title p <> "" /\ content p <> "" /\ is_ObjectId (userID p) = true.

Definition ids_unique (st : store) : Prop :=
  NoDup (map User_id (users st)) /\ NoDup (map Post_id (posts st)).

Definition well_formed (L : Externals) (st : store) : Prop :=
  ids_unique st /\ emails_unique st
  /\ Forall (admitted_user L) (users st) /\ Forall admitted_post (posts st).


(** A statement about every user of [sample_store] that [discriminate]
    settles user by user. *)
Ltac by_sample_users :=
  let u := fresh "u" in intros u [<- | [<- | [<- | []]]]; discriminate.

(** * Properties *)

(** ** Validation *)

Section ValidationFacts.

Variable L : Externals.

Lemma firstn_1_app : forall (A : Type) (l l' : list A),
  l <> [] -> firstn 1 (l ++ l') = firstn 1 l.
Proof.
  intros A l l' Hl. destruct l as [|x l]; [congruence | reflexivity].
Qed.

Lemma run_rules_abort : forall check rs,
  run_rules true check rs = firstn 1 (run_rules false check rs).
Proof.
  intros check rs. induction rs as [|r rs IH]; simpl; [reflexivity|].
  destruct (check r); [reflexivity | exact IH].
Qed.

Lemma validate_value_abort : forall k sch v,
  validate_value L true k sch v = firstn 1 (validate_value L false k sch v).
Proof.
  intros k sch v. unfold validate_value.
  destruct v as [v|].
  - destruct (base sch).
    + destruct v as [| | |s| |]; try reflexivity.
      destruct s; [reflexivity | apply run_rules_abort].
    + destruct (coerce_number L v) as [[q| | |]|]; try reflexivity.
      destruct (unsafe q); [reflexivity | apply run_rules_abort].
  - destruct (presence_required sch); reflexivity.
Qed.

Lemma validate_keys_abort : forall keys m,
  validate_keys L true keys m = firstn 1 (validate_keys L false keys m).
Proof.
  intros keys m. induction keys as [|[k sch] keys IH]; simpl; [reflexivity|].
  rewrite validate_value_abort.
  destruct (validate_value L false k sch (assoc k m)) as [|d ds]; simpl; [exact IH | reflexivity].
Qed.

Lemma unknown_keys_abort : forall keys m,
  unknown_keys true keys m = firstn 1 (unknown_keys false keys m).
Proof.
  intros keys m. induction m as [|[k v] m IH]; simpl; [reflexivity|].
  destruct (declared keys k); [exact IH | reflexivity].
Qed.

(** With [abortEarly] the validation reports the first of the violations
    that the full validation lists. *)
Lemma validate_object_abort : forall keys b,
  validate_object L true keys b = firstn 1 (validate_object L false keys b).
Proof.
  intros keys b. destruct b as [m|items]; simpl; [|reflexivity].
  rewrite validate_keys_abort.
  destruct (validate_keys L false keys m) as [|d ds]; simpl;
    [apply unknown_keys_abort | reflexivity].
Qed.

Lemma validate_first : forall keys b d ds,
  validate_object L false keys b = d :: ds -> validate L keys b = Some [d].
Proof.
  intros keys b d ds H. unfold validate. rewrite validate_object_abort, H. reflexivity.
Qed.

Lemma validate_none_iff : forall keys b,
  validate L keys b = None <-> validate_object L false keys b = [].
Proof.
  intros keys b. unfold validate. rewrite validate_object_abort.
  destruct (validate_object L false keys b); simpl; split; congruence.
Qed.

(** A failed validation always answers 400 with one message. *)
Lemma validation_failure_400 : forall keys b details,
  validate L keys b = Some details ->
  exists d, In d (validate_object L false keys b) /\
            validation_failure details = send_status 400 (message d).
Proof.
  intros keys b details H. unfold validate in H. rewrite validate_object_abort in H.
  destruct (validate_object L false keys b) as [|d ds]; simpl in H; [discriminate|].
  injection H as <-. exists d. split; [left; reflexivity | reflexivity].
Qed.

Lemma assoc_In : forall k m v, assoc k m = Some v -> In k (map fst m).
Proof.
  intros k m v. induction m as [|[k' v'] m IH]; simpl; [discriminate|].
  destruct (String.eqb k k') eqn:E; intros H.
  - left. symmetry. apply String.eqb_eq. exact E.
  - right. apply IH. exact H.
Qed.

Lemma unknown_keys_nil : forall ae keys m,
  unknown_keys ae keys m = [] -> forall k, In k (map fst m) -> declared keys k = true.
Proof.
  intros ae keys m. induction m as [|[k' v'] m IH]; simpl; intros H k Hk; [contradiction|].
  destruct (declared keys k') eqn:E.
  - destruct Hk as [<- | Hk]; [exact E | apply IH; assumption].
  - destruct ae; discriminate.
Qed.

Lemma validate_keys_nil : forall ae keys m,
  validate_keys L ae keys m = [] ->
  forall k sch, In (k, sch) keys -> validate_value L ae k sch (assoc k m) = [].
Proof.
  intros ae keys m. induction keys as [|[k' sch'] keys IH]; simpl; intros H k sch Hin;
    [contradiction|].
  destruct (validate_value L ae k' sch' (assoc k' m)) as [|d ds] eqn:E.
  - destruct Hin as [Heq | Hin]; [injection Heq as <- <-; exact E | apply IH; assumption].
  - destruct ae; [discriminate|]. simpl in H. discriminate.
Qed.

(** What a valid body is: an object whose declared keys all pass and that
    has no other key. *)
Lemma validate_ok : forall keys b,
  validate L keys b = None ->
  exists m, b = BObj m /\
    (forall k sch, In (k, sch) keys -> validate_value L true k sch (assoc k m) = []) /\
    (forall k, In k (map fst m) -> declared keys k = true).
Proof.
  intros keys b H. unfold validate in H.
  destruct b as [m|items]; simpl in H; [|discriminate].
  exists m. split; [reflexivity|].
  destruct (validate_keys L true keys m) as [|d ds] eqn:E; [|discriminate].
  destruct (unknown_keys true keys m) as [|d ds] eqn:E'; [|discriminate].
  split.
  - apply validate_keys_nil. exact E.
  - eapply unknown_keys_nil. exact E'.
Qed.

(** A required string key of a valid body holds a string that is not
    empty. *)
Lemma required_string_ok : forall ae k rs v,
  validate_value L ae k {| base := STRING; rules := rs; presence_required := true |} v = [] ->
  exists s, v = Some (JStr s) /\ s <> "".
Proof.
  intros ae k rs v H. unfold validate_value in H. simpl in H.
  destruct v as [[| | |s| |]|]; try discriminate.
  destruct s; [discriminate|]. eexists. split; [reflexivity | discriminate].
Qed.

(** The required [age] of a valid body is cast to a number by Mongoose. *)
Lemma required_number_ok : forall ae k rs v,
  validate_value L ae k {| base := NUMBER; rules := rs; presence_required := true |} v = [] ->
  exists x q, v = Some x /\ cast_Number L x = Some (Finite q).
Proof.
  intros ae k rs v H. unfold validate_value in H. simpl in H.
  destruct v as [x|]; [|discriminate].
  destruct (coerce_number L x) as [[q| | |]|] eqn:E; try discriminate.
  exists x, q. split; [reflexivity|].
  unfold coerce_number in E. destruct x as [| |n|s| |]; try discriminate.
  - injection E as ->. reflexivity.
  - destruct (joi_numeric L s) eqn:En; [|discriminate]. injection E as E.
    destruct s.
    + rewrite (joi_numeric_empty L) in En. discriminate.
    + simpl. rewrite E. reflexivity.
Qed.

Lemma valid_post_body : forall b,
  validate L postValidationSchema b = None ->
  exists m t c u, b = BObj m /\
    assoc "title" m = Some (JStr t) /\ assoc "content" m = Some (JStr c) /\
    assoc "userID" m = Some (JStr u) /\ u <> "" /\ assoc "date" m = None.
Proof.
  intros b H. destruct (validate_ok _ _ H) as (m & -> & Hk & Hu).
  destruct (required_string_ok true "title" [] (assoc "title" m)) as (t & Ht & _).
  { apply (Hk "title"). simpl. auto. }
  destruct (required_string_ok true "content" [] (assoc "content" m)) as (c & Hc & _).
  { apply (Hk "content"). simpl. auto. }
  destruct (required_string_ok true "userID" [] (assoc "userID" m)) as (u & Hid & Hne).
  { apply (Hk "userID"). simpl. auto. }
  exists m, t, c, u. repeat split; try assumption.
  destruct (assoc "date" m) as [v|] eqn:E; [|reflexivity].
  apply assoc_In in E. apply Hu in E. discriminate.
Qed.

Lemma valid_user_body : forall b,
  validate L userValidationSchema b = None ->
  exists m n e p x q g ph, b = BObj m /\
    assoc "userName" m = Some (JStr n) /\ assoc "email" m = Some (JStr e) /\
    assoc "password" m = Some (JStr p) /\
    assoc "age" m = Some x /\ cast_Number L x = Some (Finite q) /\
    assoc "gender" m = Some (JStr g) /\ assoc "phone" m = Some (JStr ph).
Proof.
  intros b H. destruct (validate_ok _ _ H) as (m & -> & Hk & _).
  destruct (required_string_ok true "userName" [] (assoc "userName" m)) as (n & Hn & _).
  { apply (Hk "userName"). simpl. auto. }
  destruct (required_string_ok true "email" [rule_email] (assoc "email" m)) as (e & He & _).
  { apply (Hk "email"). simpl. auto. }
  destruct (required_string_ok true "password" [] (assoc "password" m)) as (p & Hp & _).
  { apply (Hk "password"). simpl. auto. }
  destruct (required_number_ok true "age" [rule_integer; rule_min 0] (assoc "age" m))
    as (x & q & Hx & Hq).
  { apply (Hk "age"). simpl. auto 6. }
  destruct (required_string_ok true "gender" [] (assoc "gender" m)) as (g & Hg & _).
  { apply (Hk "gender"). simpl. auto 7. }
  destruct (required_string_ok true "phone" [] (assoc "phone" m)) as (ph & Hph & _).
  { apply (Hk "phone"). simpl. auto 8. }
  exists m, n, e, p, x, q, g, ph. repeat split; assumption.
Qed.

(** A key that the schema does not declare makes the validation fail. *)
Lemma unknown_key_invalid : forall keys m k,
  In k (map fst m) -> declared keys k = false -> validate L keys (BObj m) <> None.
Proof.
  intros keys m k Hin Hd H. apply validate_ok in H.
  destruct H as (m' & Heq & _ & Hu). injection Heq as <-.
  rewrite (Hu k Hin) in Hd. discriminate.
Qed.

End ValidationFacts.

(** ** ObjectIds and collections *)

Lemma lower_hex_fixed : forall c, is_lower_hex c = true -> to_lower c = c /\ is_hex c = true.
Proof.
  intros c H. unfold is_hex. rewrite H. split; [|reflexivity].
  unfold to_lower, is_lower_hex, between in *.
  destruct ((65 <=? code c)%nat && (code c <=? 90)%nat) eqn:E; [|reflexivity].
  apply andb_true_iff in E. destruct E as [E1 E2].
  apply Nat.leb_le in E1. apply Nat.leb_le in E2.
  apply orb_true_iff in H. destruct H as [H | H];
    apply andb_true_iff in H; destruct H as [H1 H2];
    apply Nat.leb_le in H1; apply Nat.leb_le in H2; lia.
Qed.

Lemma lowercase_lower_hex : forall s,
  all_chars is_lower_hex s = true -> lowercase s = s /\ all_chars is_hex s = true.
Proof.
  induction s as [|c s IH]; simpl; intros H; [split; reflexivity|].
  apply andb_true_iff in H. destruct H as [Hc Hs].
  destruct (lower_hex_fixed c Hc) as [-> ->]. destruct (IH Hs) as [-> ->].
  split; reflexivity.
Qed.

(** The text of an ObjectId is cast back to the same ObjectId. *)
Lemma castObjectId_toString : forall o, is_ObjectId o = true -> castObjectId o = Some o.
Proof.
  intros o H. unfold is_ObjectId in H. apply andb_true_iff in H. destruct H as [Hlen Hhex].
  unfold castObjectId. destruct (lowercase_lower_hex o Hhex) as [-> ->].
  rewrite Hlen. reflexivity.
Qed.

Lemma find_replace_first : forall (A : Type) (sel : A -> bool) (y : A) (l : list A) (x : A),
  find sel l = Some x -> sel y = true -> find sel (replace_first sel y l) = Some y.
Proof.
  intros A sel y l x. induction l as [|a l IH]; simpl; [discriminate|].
  destruct (sel a) eqn:E; intros H Hy; simpl.
  - rewrite Hy. reflexivity.
  - rewrite E. apply IH; assumption.
Qed.

(** Replacing the first selected element touches no other one. *)
Lemma In_replace_first : forall (A : Type) (sel : A -> bool) (y : A) (l : list A) (z : A),
  In z (replace_first sel y l) -> z = y \/ In z l.
Proof.
  intros A sel y l z. induction l as [|a l IH]; simpl; [contradiction|].
  destruct (sel a); simpl; intros [H | H]; auto.
  destruct (IH H); auto.
Qed.

Lemma existsb_find_none : forall (A : Type) (sel : A -> bool) (l : list A),
  find sel l = None -> existsb sel l = false.
Proof.
  intros A sel l. induction l as [|a l IH]; simpl; [reflexivity|].
  destruct (sel a); [discriminate | exact IH].
Qed.

Lemma find_none_iff : forall (A : Type) (sel : A -> bool) (l : list A),
  find sel l = None <-> (forall x, In x l -> sel x = false).
Proof.
  intros A sel l. split.
  - apply find_none.
  - induction l as [|a l IH]; simpl; intros H; [reflexivity|].
    rewrite (H a (or_introl eq_refl)). apply IH. intros x Hx. apply H. right. exact Hx.
Qed.

(** ** Numbers *)

Lemma num_leb_le : forall a b, num_leb a b = true <-> num_le a b.
Proof.
  intros [p| | |] [q| | |]; simpl; try (split; [discriminate | contradiction]);
    try (split; [intros _; exact I | reflexivity]).
  apply Qle_bool_iff.
Qed.

Lemma num_ltb_lt : forall a b, num_ltb a b = true <-> num_lt a b.
Proof.
  intros [p| | |] [q| | |]; simpl; try (split; [discriminate | contradiction]);
    try (split; [intros _; exact I | reflexivity]).
  rewrite negb_true_iff. split; intros H.
  - apply Qnot_le_lt. intros Hle. apply Qle_bool_iff in Hle. congruence.
  - destruct (Qle_bool q p) eqn:E; [|reflexivity].
    apply Qle_bool_iff in E. exfalso. exact (Qlt_not_le _ _ H E).
Qed.

Lemma castNumber_number : forall L s n,
  casts_to_number L s n -> castNumber L (Some s) = Ok (Num n).
Proof.
  intros L s n (Hs & Hn & Hnan). unfold castNumber.
  destruct s; [congruence|]. rewrite Hn. destruct n; congruence.
Qed.

(** ** Regular expressions *)

(** A prefix of plain characters is read as its literals, and they match
    exactly the strings that start with the prefix in either case. *)
Lemma atoms_of_plain : forall prefix,
  all_chars plain prefix = true ->
  exists l, atoms_of prefix = Some l /\
            forall s, match_atoms l s = true <-> starts_with_ignoring_case prefix s.
Proof.
  induction prefix as [|c prefix IH]; simpl; intros H.
  - exists []. split; [reflexivity|]. intros s. split; [|reflexivity].
    intros _. exists (lowercase s). reflexivity.
  - apply andb_true_iff in H. destruct H as [Hc Hp]. rewrite Hc.
    destruct (IH Hp) as (l & -> & Hl). exists (Lit c :: l). split; [reflexivity|].
    intros s. destruct s as [|d s]; simpl.
    + split; [discriminate|]. intros [rest Hr]. discriminate.
    + rewrite andb_true_iff, Hl, Ascii.eqb_eq. split.
      * intros [Hcd [rest Hr]]. exists rest. simpl. rewrite Hr, Hcd. reflexivity.
      * intros [rest Hr]. simpl in Hr. injection Hr as Hd Hr.
        split; [congruence | exists rest; exact Hr].
Qed.

Lemma RegExp_i_plain : forall L prefix,
  all_chars plain prefix = true ->
  exists re, RegExp_i L ("^" ++ prefix) = Some re /\
             forall s, test re s = true <-> starts_with_ignoring_case prefix s.
Proof.
  intros L prefix H. destruct (atoms_of_plain prefix H) as (l & Hl & Hm).
  simpl. rewrite Hl. eexists. split; [reflexivity | exact Hm].
Qed.

(** ** Validation failures (claims C8 and C10) *)

(** C8.  Whenever a body violates the user schema or the post schema, each
    handler that validates against that schema answers 400 with a single
    message, the message of the first violation in the order in which the
    full validation lists them (the keys in schema order, then the
    undeclared keys), however many violations follow; the store is left as
    it was. *)
Theorem C8_first_violation_reported :
  forall (L : Externals) (e : env) (st : store) (id : string) (body : reqbody)
         (d : detail) (ds : list detail),
    (validate_object L false userValidationSchema body = d :: ds ->
       post_api_users_signup L e st body = (send_status 400 (message d), st) /\
       put_api_users_id L st id body = (send_status 400 (message d), st)) /\
    (validate_object L false postValidationSchema body = d :: ds ->
       post_api_posts L e st body = (send_status 400 (message d), st) /\
       put_api_posts_id L st id body = (send_status 400 (message d), st)).
Proof.
  intros L e st id body d ds. split; intros H; apply validate_first in H;
    unfold post_api_users_signup, put_api_users_id, post_api_posts, put_api_posts_id;
    rewrite H; split; reflexivity.
Qed.

Lemma C8_first_violation_reported_witness :
  (validate_object decimal_externals false userValidationSchema bad_user_body
   = [ report "userName" "any.required" " is required";
       report "email" "string.email" " must be a valid email";
       report "password" "any.required" " is required";
       report "age" "number.integer" " must be an integer";
       report "age" "number.min" " must be greater than or equal to 0";
       report "gender" "any.required" " is required";
       report "phone" "any.required" " is required" ]
   /\ post_api_users_signup decimal_externals sample_env sample_store bad_user_body
      = (send_status 400 (label "userName" ++ " is required"), sample_store))
  /\ (validate_object decimal_externals false postValidationSchema bad_post_body
      = [ report "title" "string.empty" " is not allowed to be empty";
          report "content" "any.required" " is required";
          report "userID" "any.required" " is required";
          report "date" "object.unknown" " is not allowed" ]
      /\ put_api_posts_id decimal_externals sample_store id_d bad_post_body
         = (send_status 400 (label "title" ++ " is not allowed to be empty"), sample_store)).
Proof.
  split; (split; [reflexivity|]).
  - apply (proj1 (C8_first_violation_reported decimal_externals sample_env sample_store id_a
                    bad_user_body (report "userName" "any.required" " is required")
                    (tl (validate_object decimal_externals false userValidationSchema
                           bad_user_body)))).
    reflexivity.
  - apply (proj2 (C8_first_violation_reported decimal_externals sample_env sample_store id_d
                    bad_post_body (report "title" "string.empty" " is not allowed to be empty")
                    (tl (validate_object decimal_externals false postValidationSchema
                           bad_post_body)))).
    reflexivity.
Defined.

Lemma new_Post_default_date : forall L e b p,
  body_prop b "date" = None -> new_Post L e b = Some p -> date p = now e.
Proof.
  intros L e b p Hd H. unfold new_Post in H. rewrite Hd in H.
  destruct (bind (body_prop b "title") cast_String); simpl in H; [|discriminate].
  destruct (bind (body_prop b "content") cast_String); simpl in H; [|discriminate].
  destruct (bind (body_prop b "userID") cast_ObjectId); simpl in H; [|discriminate].
  injection H as <-. reflexivity.
Qed.

(** C10.  A body with a key that the validation schema does not declare is
    refused with 400 by the four validating handlers, and the store is left
    as it was.  Hence a post that [POST /api/posts] creates comes from a
    body without [date], and its date is the creation time. *)
Theorem C10_undeclared_key_rejected :
  forall (L : Externals) (e : env) (st : store) (id : string) (body : reqbody),
    (forall m k, body = BObj m -> In k (map fst m) ->
       declared userValidationSchema k = false ->
       exists text,
         post_api_users_signup L e st body = (send_status 400 text, st) /\
         put_api_users_id L st id body = (send_status 400 text, st)) /\
    (forall m k, body = BObj m -> In k (map fst m) ->
       declared postValidationSchema k = false ->
       exists text,
         post_api_posts L e st body = (send_status 400 text, st) /\
         put_api_posts_id L st id body = (send_status 400 text, st)) /\
    (forall p st', post_api_posts L e st body = (send (Doc (PostDoc p)), st') ->
       body_prop body "date" = None /\ date p = now e /\ posts st' = (posts st ++ [p])%list).
Proof.
  intros L e st id body. split; [|split].
  - intros m k -> Hin Hd.
    destruct (validate L userValidationSchema (BObj m)) as [details|] eqn:E.
    + destruct (validation_failure_400 L _ _ _ E) as (d & _ & Hd').
      exists (message d). unfold post_api_users_signup, put_api_users_id.
      rewrite E, Hd'. split; reflexivity.
    + exfalso. exact (unknown_key_invalid L _ _ _ Hin Hd E).
  - intros m k -> Hin Hd.
    destruct (validate L postValidationSchema (BObj m)) as [details|] eqn:E.
    + destruct (validation_failure_400 L _ _ _ E) as (d & _ & Hd').
      exists (message d). unfold post_api_posts, put_api_posts_id.
      rewrite E, Hd'. split; reflexivity.
    + exfalso. exact (unknown_key_invalid L _ _ _ Hin Hd E).
  - intros p st' H. unfold post_api_posts in H.
    destruct (validate L postValidationSchema body) as [details|] eqn:E.
    + destruct (validation_failure_400 L _ _ _ E) as (d & _ & Hd').
      rewrite Hd' in H. discriminate.
    + destruct (valid_post_body L body E) as (m & t & c & u & -> & _ & _ & Hu & _ & Hdate).
      simpl in H. rewrite Hu in H.
      destruct (User_findById st u) as [[found|]|]; try discriminate.
      destruct (new_Post L e (BObj m)) as [post|] eqn:En; [|discriminate].
      unfold Post_insert in H.
      destruct (existsb (has_id_Post (Post_id post)) (posts st)); [discriminate|].
      injection H as <- <-. simpl.
      split; [exact Hdate|]. split; [|reflexivity].
      eapply new_Post_default_date; [|exact En]. exact Hdate.
Qed.

Lemma C10_undeclared_key_rejected_witness :
  (In "date" (map fst dated_post_props)
   /\ declared postValidationSchema "date" = false
   /\ exists text,
        post_api_posts decimal_externals sample_env sample_store (BObj dated_post_props)
        = (send_status 400 text, sample_store)
        /\ put_api_posts_id decimal_externals sample_store id_d (BObj dated_post_props)
           = (send_status 400 text, sample_store))
  /\ (body_prop (post_body "T" "C" id_a) "date" = None
      /\ date {| Post_id := newId sample_env; title := "T"; content := "C";
                 userID := id_a; date := 2000 |} = now sample_env
      /\ posts {| users := users sample_store;
                  posts := posts sample_store ++
                           [ {| Post_id := newId sample_env; title := "T"; content := "C";
                                userID := id_a; date := 2000 |} ] |}
         = (posts sample_store ++
            [ {| Post_id := newId sample_env; title := "T"; content := "C";
                 userID := id_a; date := 2000 |} ])%list).
Proof.
  split.
  - split; [simpl; auto 6|]. split; [reflexivity|].
    apply (proj1 (proj2 (C10_undeclared_key_rejected decimal_externals sample_env sample_store
                           id_d (BObj dated_post_props))) dated_post_props "date" eq_refl);
      [simpl; auto 6 | reflexivity].
  - apply (proj2 (proj2 (C10_undeclared_key_rejected decimal_externals sample_env sample_store
                           id_d (post_body "T" "C" id_a)))).
    reflexivity.
Defined.

(** ** Ownership of posts (claims C1, C2 and C9) *)

Lemma not_owner_other : forall p body v,
  body_prop body "userID" = Some v -> v <> JStr (userID p) -> not_owner p body = true.
Proof.
  intros p body v Hv Hne. unfold not_owner. rewrite Hv.
  destruct v as [| | |s| |]; try reflexivity.
  destruct (String.eqb (userID p) s) eqn:E; [|reflexivity].
  apply String.eqb_eq in E. subst s. congruence.
Qed.

Lemma owner_userID : forall p body,
  not_owner p body = false -> body_prop body "userID" = Some (JStr (userID p)).
Proof.
  intros p body H. unfold not_owner in H.
  destruct (body_prop body "userID") as [[| | |s| |]|]; try discriminate.
  apply negb_false_iff, String.eqb_eq in H. subst s. reflexivity.
Qed.

(** C1, amended.  For a stored post [p] addressed by the request and a
    body whose [userID] differs from the stored one: DELETE answers 403 and
    the store is unchanged; PUT leaves the store unchanged, answering 403
    when the body passes the post validation and 400 when it does not. *)
Theorem C1_foreign_userID_forbidden :
  forall (L : Externals) (st : store) (id : string) (body : reqbody) (p : Post) (v : json),
    Post_findById st id = Ok (Some p) ->
    body_prop body "userID" = Some v ->
    v <> JStr (userID p) ->
    delete_api_posts_id st id body
      = (send_status 403 "You are not authorized to delete this post", st)
    /\ (validate L postValidationSchema body = None ->
        put_api_posts_id L st id body
          = (send_status 403 "You are not authorized to update this post", st))
    /\ (validate L postValidationSchema body <> None ->
        exists text, put_api_posts_id L st id body = (send_status 400 text, st)).
Proof.
  intros L st id body p v Hp Hv Hne.
  pose proof (not_owner_other p body v Hv Hne) as Hno.
  unfold delete_api_posts_id, put_api_posts_id. rewrite Hp, Hno.
  split; [reflexivity|]. split.
  - intros ->. reflexivity.
  - intros Hval. destruct (validate L postValidationSchema body) as [details|] eqn:E;
      [|congruence].
    destruct (validation_failure_400 L _ _ _ E) as (d & _ & ->).
    exists (message d). reflexivity.
Qed.

Lemma C1_foreign_userID_forbidden_witness :
  Post_findById sample_store id_d = Ok (Some post_of_alice)
  /\ body_prop (post_body "New" "Text" id_b) "userID" = Some (JStr id_b)
  /\ JStr id_b <> JStr (userID post_of_alice)
  /\ delete_api_posts_id sample_store id_d (post_body "New" "Text" id_b)
     = (send_status 403 "You are not authorized to delete this post", sample_store)
  /\ put_api_posts_id decimal_externals sample_store id_d (post_body "New" "Text" id_b)
     = (send_status 403 "You are not authorized to update this post", sample_store).
Proof.
  assert (Hne : JStr id_b <> JStr (userID post_of_alice)) by discriminate.
  split; [reflexivity|]. split; [reflexivity|]. split; [exact Hne|].
  destruct (C1_foreign_userID_forbidden decimal_externals sample_store id_d
              (post_body "New" "Text" id_b) post_of_alice (JStr id_b)
              eq_refl eq_refl Hne) as (Hdel & Hput & _).
  split; [exact Hdel | exact (Hput eq_refl)].
Defined.

(** C1 as stated fails for PUT: a body that carries only a foreign
    [userID] is answered 400 by the validation, which runs before the
    ownership check, whatever the library parameters are. *)
Lemma C1_counterexample :
  Post_findById sample_store id_d = Ok (Some post_of_alice)
  /\ body_prop (BObj [("userID", JStr id_b)]) "userID" = Some (JStr id_b)
  /\ JStr id_b <> JStr (userID post_of_alice)
  /\ (forall L : Externals,
        put_api_posts_id L sample_store id_d (BObj [("userID", JStr id_b)])
        = (send_status 400 (label "title" ++ " is required"), sample_store))
  /\ send_status 400 (label "title" ++ " is required")
     <> send_status 403 "You are not authorized to update this post".
Proof.
  split; [reflexivity|]. split; [reflexivity|]. split; [discriminate|].
  split; [intros L; reflexivity | discriminate].
Qed.

Lemma find_no_user : forall st o,
  (forall u, In u (users st) -> Some o <> Some (User_id u)) ->
  find (has_id_User o) (users st) = None.
Proof.
  intros st o H. apply find_none_iff. intros u Hu. unfold has_id_User.
  destruct (String.eqb (User_id u) o) eqn:E; [|reflexivity].
  apply String.eqb_eq in E. exfalso. apply (H u Hu). congruence.
Qed.

(** C2, amended.  For a body that passes the post validation and whose
    [userID] is the id of no stored user, [POST /api/posts] persists
    nothing; it answers 404 when the [userID] can be cast to an ObjectId
    (24 hexadecimal digits, or 12 characters) and 500 when it cannot. *)
Theorem C2_unknown_owner_not_persisted :
  forall (L : Externals) (e : env) (st : store) (body : reqbody) (s : string),
    validate L postValidationSchema body = None ->
    body_prop body "userID" = Some (JStr s) ->
    (forall u, In u (users st) -> castObjectId s <> Some (User_id u)) ->
    (forall o, castObjectId s = Some o ->
       post_api_posts L e st body = (send_status 404 "User not found", st))
    /\ (castObjectId s = None -> post_api_posts L e st body = (server_error, st)).
Proof.
  intros L e st body s Hval Hs Hnone. unfold post_api_posts, User_findById.
  rewrite Hval, Hs. split.
  - intros o Ho. rewrite Ho. rewrite find_no_user; [reflexivity|].
    intros u Hu. rewrite <- Ho. apply Hnone. exact Hu.
  - intros ->. reflexivity.
Qed.

Lemma C2_unknown_owner_not_persisted_witness :
  validate decimal_externals postValidationSchema (post_body "T" "C" id_d) = None
  /\ body_prop (post_body "T" "C" id_d) "userID" = Some (JStr id_d)
  /\ (forall u, In u (users sample_store) -> castObjectId id_d <> Some (User_id u))
  /\ post_api_posts decimal_externals sample_env sample_store (post_body "T" "C" id_d)
     = (send_status 404 "User not found", sample_store).
Proof.
  assert (Hnone : forall u, In u (users sample_store) -> castObjectId id_d <> Some (User_id u)).
  { by_sample_users. }
  split; [reflexivity|]. split; [reflexivity|]. split; [exact Hnone|].
  exact (proj1 (C2_unknown_owner_not_persisted decimal_externals sample_env sample_store
                  (post_body "T" "C" id_d) id_d eq_refl eq_refl Hnone) id_d eq_refl).
Defined.

(** C2 as stated fails: the [userID] "abc" passes the validation and is
    the id of no user, yet the answer is 500, since the cast of "abc" to an
    ObjectId is an error that the handler's [catch] receives. *)
Lemma C2_counterexample :
  (forall L : Externals, validate L postValidationSchema (post_body "T" "C" "abc") = None)
  /\ (forall u, In u (users sample_store) -> castObjectId "abc" <> Some (User_id u))
  /\ (forall (L : Externals) (e : env),
        post_api_posts L e sample_store (post_body "T" "C" "abc")
        = (send_status 500 "Server error", sample_store)).
Proof.
  split; [intros L; reflexivity|]. split; [intros u _; discriminate|].
  intros L e. reflexivity.
Qed.

(** C9.  A [PUT /api/posts/:id] that answers 200 for the stored post [p]
    stores a post with the id and the [userID] of [p]; every other post of
    the collection is one that was there before. *)
Theorem C9_update_keeps_owner :
  forall (L : Externals) (st st' : store) (id : string) (body : reqbody) (p : Post)
         (r : response),
    Post_findById st id = Ok (Some p) ->
    is_ObjectId (userID p) = true ->
    put_api_posts_id L st id body = (r, st') ->
    status r = 200%Z ->
    exists p', r = send (Doc (PostDoc p'))
      /\ Post_findById st' id = Ok (Some p')
      /\ userID p' = userID p /\ Post_id p' = Post_id p
      /\ (forall q, In q (posts st') -> q = p' \/ In q (posts st)).
Proof.
  intros L st st' id body p r Hp Hid H Hst. unfold put_api_posts_id in H.
  destruct (validate L postValidationSchema body) as [details|] eqn:E.
  { destruct (validation_failure_400 L _ _ _ E) as (d & _ & Hd).
    rewrite Hd in H. injection H as <- _. discriminate. }
  rewrite Hp in H. destruct (not_owner p body) eqn:Hno.
  { injection H as <- _. discriminate. }
  apply owner_userID in Hno.
  destruct (valid_post_body L body E) as (m & t & c & u & -> & Ht & Hc & Hu & _ & Hd).
  simpl in Hno. rewrite Hu in Hno. injection Hno as ->.
  unfold Post_set in H. simpl in H. rewrite Ht, Hc, Hu, Hd in H. simpl in H.
  rewrite (castObjectId_toString _ Hid) in H. simpl in H.
  injection H as <- <-.
  eexists. split; [reflexivity|].
  unfold Post_findById in *. destruct (castObjectId id) as [o|]; [|discriminate].
  injection Hp as Hp. simpl.
  assert (Ho : Post_id p = o).
  { apply find_some in Hp. destruct Hp as [_ Hp]. apply String.eqb_eq. exact Hp. }
  subst o. split.
  - f_equal. eapply find_replace_first; [exact Hp|].
    unfold has_id_Post. simpl. apply String.eqb_refl.
  - split; [reflexivity|]. split; [reflexivity|].
    intros q Hq. apply In_replace_first in Hq. exact Hq.
Qed.

Lemma C9_update_keeps_owner_witness :
  Post_findById sample_store id_d = Ok (Some post_of_alice)
  /\ is_ObjectId (userID post_of_alice) = true
  /\ exists p', fst (put_api_posts_id decimal_externals sample_store id_d
                       (post_body "New" "Text" id_a)) = send (Doc (PostDoc p'))
      /\ userID p' = id_a /\ title p' = "New".
Proof.
  split; [reflexivity|]. split; [reflexivity|].
  destruct (C9_update_keeps_owner decimal_externals sample_store
              (snd (put_api_posts_id decimal_externals sample_store id_d
                      (post_body "New" "Text" id_a)))
              id_d (post_body "New" "Text" id_a) post_of_alice
              (fst (put_api_posts_id decimal_externals sample_store id_d
                      (post_body "New" "Text" id_a)))
              eq_refl eq_refl eq_refl eq_refl) as (p' & Hr & _ & Hu & _).
  exists p'. split; [exact Hr|]. split; [exact Hu|].
  vm_compute in Hr. injection Hr as <-. reflexivity.
Defined.

(** ** Signup (claim C3) *)

Lemma existsb_false_iff : forall (A : Type) (sel : A -> bool) (l : list A),
  existsb sel l = false <-> (forall x, In x l -> sel x = false).
Proof.
  intros A sel l. rewrite <- find_none_iff. split.
  - induction l as [|a l IH]; simpl; [reflexivity|].
    destruct (sel a); [discriminate | exact IH].
  - apply existsb_find_none.
Qed.

Lemma new_User_valid : forall L e m n mail p x q g ph,
  assoc "userName" m = Some (JStr n) -> assoc "email" m = Some (JStr mail) ->
  assoc "password" m = Some (JStr p) ->
  assoc "age" m = Some x -> cast_Number L x = Some (Finite q) ->
  assoc "gender" m = Some (JStr g) -> assoc "phone" m = Some (JStr ph) ->
  new_User L e (BObj m)
  = Some {| User_id := newId e; userName := n; email := mail; password := p;
            age := Finite q; gender := g; phone := ph |}.
Proof.
  intros L e m n mail p x q g ph Hn Hm Hp Hx Hq Hg Hph.
  unfold new_User. simpl. rewrite Hn, Hm, Hp, Hx, Hg, Hph. simpl. rewrite Hq. reflexivity.
Qed.

Lemma signup_duplicate : forall L e st body mail,
  validate L userValidationSchema body = None ->
  body_prop body "email" = Some (JStr mail) ->
  (exists u, In u (users st) /\ email u = mail) ->
  post_api_users_signup L e st body = (send_status 400 "Email already exists", st).
Proof.
  intros L e st body mail Hval Hm (u & Hu & Hmail).
  unfold post_api_users_signup. rewrite Hval, Hm. simpl.
  destruct (find (fun u0 => String.eqb (email u0) mail) (users st)) eqn:Ef; [reflexivity|].
  rewrite find_none_iff in Ef. specialize (Ef u Hu). simpl in Ef.
  apply String.eqb_neq in Ef. contradiction.
Qed.

(** Signup keeps the emails of the collection distinct, whatever the
    body. *)
Lemma signup_emails_unique : forall L e st body,
  emails_unique st -> emails_unique (snd (post_api_users_signup L e st body)).
Proof.
  intros L e st body Hu. unfold post_api_users_signup.
  destruct (validate L userValidationSchema body); [exact Hu|].
  destruct (User_findOne_email st (body_prop body "email")) as [[found|]|]; try exact Hu.
  destruct (new_User L e body) as [user|]; [|exact Hu].
  unfold User_insert.
  destruct (existsb (has_id_User (User_id user)) (users st)); [exact Hu|]. simpl.
  destruct (existsb (fun u' => String.eqb (email u') (email user)) (users st)) eqn:E;
    [exact Hu|].
  unfold emails_unique. simpl. rewrite map_app. apply NoDup_app.
  - exact Hu.
  - simpl. constructor; [intros [] | constructor].
  - intros a Ha [<- | []]. apply in_map_iff in Ha. destruct Ha as (u & Hmail & Hin).
    rewrite existsb_false_iff in E. specialize (E u Hin). simpl in E.
    apply String.eqb_neq in E. contradiction.
Qed.

(** C3.  For a body that passes the user validation, with [mail] its
    email: when no stored user has [mail], signup answers 200 with the new
    user, whose fields are those of the body and whose id is the generated
    one (an id no stored user has), and appends it to the collection, after
    which a second signup with the same body answers 400; when some stored
    user has [mail], signup answers 400 and the store is unchanged.  For
    every body, signup keeps the emails of the stored users pairwise
    distinct. *)
Theorem C3_signup_unique_email :
  forall (L : Externals) (e : env) (st : store) (body : reqbody),
    (validate L userValidationSchema body = None ->
     exists mail, body_prop body "email" = Some (JStr mail) /\
       ((forall u, In u (users st) -> email u <> mail) ->
        (forall u, In u (users st) -> User_id u <> newId e) ->
        exists user,
          post_api_users_signup L e st body
            = (send (Doc (UserDoc user)),
               {| users := users st ++ [user]; posts := posts st |})
          /\ User_id user = newId e /\ email user = mail
          /\ body_prop body "userName" = Some (JStr (userName user))
          /\ body_prop body "password" = Some (JStr (password user))
          /\ bind (body_prop body "age") (cast_Number L) = Some (age user)
          /\ body_prop body "gender" = Some (JStr (gender user))
          /\ body_prop body "phone" = Some (JStr (phone user))
          /\ (forall e',
                post_api_users_signup L e'
                  {| users := users st ++ [user]; posts := posts st |} body
                = (send_status 400 "Email already exists",
                   {| users := users st ++ [user]; posts := posts st |})))
       /\ ((exists u, In u (users st) /\ email u = mail) ->
           post_api_users_signup L e st body = (send_status 400 "Email already exists", st)))
    /\ (emails_unique st -> emails_unique (snd (post_api_users_signup L e st body))).
Proof.
  intros L e st body. split; [|apply signup_emails_unique].
  intros Hval.
  destruct (valid_user_body L body Hval)
    as (m & n & mail & p & x & q & g & ph & -> & Hn & Hm & Hp & Hx & Hq & Hg & Hph).
  exists mail. split; [exact Hm|].
  split; [|apply signup_duplicate; assumption].
  unfold post_api_users_signup at 1. rewrite Hval. simpl. rewrite Hm. simpl.
  intros Hfree Hfresh.
  assert (Hnone : find (fun u => String.eqb (email u) mail) (users st) = None).
  { apply find_none_iff. intros u Hu. apply String.eqb_neq. apply Hfree. exact Hu. }
  rewrite Hnone.
  rewrite (new_User_valid L e m n mail p x q g ph Hn Hm Hp Hx Hq Hg Hph).
  unfold User_insert. simpl.
  assert (H1 : existsb (has_id_User (newId e)) (users st) = false).
  { apply existsb_false_iff. intros u Hu. apply String.eqb_neq. apply Hfresh. exact Hu. }
  assert (H2 : existsb (fun u' => String.eqb (email u') mail) (users st) = false).
  { apply existsb_find_none. exact Hnone. }
  rewrite H1, H2. simpl. eexists. split; [reflexivity|]. simpl.
  rewrite Hx. simpl. repeat (split; [assumption || reflexivity|]).
  intros e'. apply (signup_duplicate L e' _ (BObj m) mail Hval Hm).
  eexists. split; [apply in_or_app; right; left; reflexivity | reflexivity].
Qed.

Lemma C3_signup_unique_email_witness :
  validate decimal_externals userValidationSchema (user_body "Carol" "carol@example.com" 25)
  = None
  /\ (exists user,
        post_api_users_signup decimal_externals sample_env sample_store
          (user_body "Carol" "carol@example.com" 25)
        = (send (Doc (UserDoc user)),
           {| users := users sample_store ++ [user]; posts := posts sample_store |})
        /\ email user = "carol@example.com")
  /\ post_api_users_signup decimal_externals sample_env sample_store
       (user_body "Carol" "alice@example.com" 25)
     = (send_status 400 "Email already exists", sample_store)
  /\ emails_unique sample_store
  /\ emails_unique (snd (post_api_users_signup decimal_externals sample_env sample_store
                           (user_body "Carol" "carol@example.com" 25))).
Proof.
  assert (Hu : emails_unique sample_store).
  { unfold emails_unique. simpl.
    repeat (constructor; [simpl; intuition discriminate|]).
    constructor. }
  split; [reflexivity|]. split; [|split; [|split; [exact Hu|]]].
  - destruct (C3_signup_unique_email decimal_externals sample_env sample_store
                (user_body "Carol" "carol@example.com" 25)) as [H _].
    destruct (H eq_refl) as (mail & Hmail & Hnew & _).
    injection Hmail as <-.
    destruct Hnew as (user & Hr & _ & Hm & _).
    + by_sample_users.
    + by_sample_users.
    + exists user. split; [exact Hr | exact Hm].
  - destruct (C3_signup_unique_email decimal_externals sample_env sample_store
                (user_body "Carol" "alice@example.com" 25)) as [H _].
    destruct (H eq_refl) as (mail & Hmail & _ & Hdup).
    injection Hmail as <-.
    apply Hdup. exists alice. split; [left; reflexivity | reflexivity].
  - exact (proj2 (C3_signup_unique_email decimal_externals sample_env sample_store
                    (user_body "Carol" "carol@example.com" 25)) Hu).
Defined.

(** ** Searches (claims C4, C5 and C6) *)

Lemma num_of_Z_le : forall a b, num_le (num_of_Z a) (num_of_Z b) <-> (a <= b)%Z.
Proof.
  intros a b. unfold num_of_Z, num_le. rewrite <- Zle_Qle. reflexivity.
Qed.

(** C6.  When [minAge] and [maxAge] are numbers, the age search answers
    200 with exactly the stored users whose age lies between them, both
    bounds included; a user one below [minAge] or one above [maxAge] is not
    in the answer. *)
Theorem C6_age_range_inclusive :
  forall (L : Externals) (st : store) (smin smax : string) (nmin nmax : jsnum),
    casts_to_number L smin nmin ->
    casts_to_number L smax nmax ->
    exists found,
      get_api_users_search_age L st (Some smin) (Some smax) = send (Users found)
      /\ (forall u, In u found <->
                    In u (users st) /\ num_le nmin (age u) /\ num_le (age u) nmax)
      /\ (forall u z, nmin = num_of_Z z -> age u = num_of_Z (z - 1) -> ~ In u found)
      /\ (forall u z, nmax = num_of_Z z -> age u = num_of_Z (z + 1) -> ~ In u found).
Proof.
  intros L st smin smax nmin nmax Hmin Hmax.
  unfold get_api_users_search_age, User_find.
  cbn [on_age on_userName cast_number_conds cast_number_cond].
  rewrite (castNumber_number L smin nmin Hmin), (castNumber_number L smax nmax Hmax).
  eexists. split; [reflexivity|].
  assert (Hin : forall u,
             In u (filter (fun u0 => true && (num_leb nmin (age u0)
                                              && (num_leb (age u0) nmax && true)))
                     (users st))
             <-> In u (users st) /\ num_le nmin (age u) /\ num_le (age u) nmax).
  { intros u. rewrite filter_In. simpl. rewrite andb_true_r, andb_true_iff.
    rewrite !num_leb_le. reflexivity. }
  split; [exact Hin|]. split.
  - intros u z -> Hage Hu. apply Hin in Hu. destruct Hu as (_ & Hle & _).
    rewrite Hage in Hle. apply (proj1 (num_of_Z_le _ _)) in Hle. lia.
  - intros u z -> Hage Hu. apply Hin in Hu. destruct Hu as (_ & _ & Hle).
    rewrite Hage in Hle. apply (proj1 (num_of_Z_le _ _)) in Hle. lia.
Qed.

Lemma decimal_casts : forall s z,
  s <> "" -> decimal s = Some z -> casts_to_number decimal_externals s (num_of_Z z).
Proof.
  intros s z Hs Hz. split; [exact Hs|]. split; [|discriminate].
  simpl. unfold decimal_Number. destruct s; [congruence|]. rewrite Hz. reflexivity.
Qed.

Lemma C6_age_range_inclusive_witness :
  casts_to_number decimal_externals "20" (num_of_Z 20)
  /\ casts_to_number decimal_externals "30" (num_of_Z 30)
  /\ exists found,
       get_api_users_search_age decimal_externals sample_store (Some "20") (Some "30")
       = send (Users found)
       /\ In alice found /\ ~ In albert found /\ ~ In balrog found.
Proof.
  assert (H20 : casts_to_number decimal_externals "20" (num_of_Z 20))
    by (apply decimal_casts; [discriminate | reflexivity]).
  assert (H30 : casts_to_number decimal_externals "30" (num_of_Z 30))
    by (apply decimal_casts; [discriminate | reflexivity]).
  split; [exact H20|]. split; [exact H30|].
  destruct (C6_age_range_inclusive decimal_externals sample_store "20" "30" _ _ H20 H30)
    as (found & Hr & Hin & Hbelow & Habove).
  exists found. split; [exact Hr|]. split; [|split].
  - apply Hin. split; [left; reflexivity|]. split; apply (proj2 (num_of_Z_le _ _)); lia.
  - apply (Hbelow albert 20%Z); reflexivity.
  - apply (Habove balrog 30%Z); reflexivity.
Defined.

(** A prefix without metacharacters: the search answers with exactly the
    users whose name starts with it, in either case, and whose age is below
    [maxAge]. *)
Lemma search_plain_prefix :
  forall (L : Externals) (st : store) (prefix smax : string) (nmax : jsnum),
    all_chars plain prefix = true ->
    casts_to_number L smax nmax ->
    exists found,
      get_api_users_search L st (Some prefix) (Some smax) = send (Users found)
      /\ (forall u, In u found <->
                    In u (users st) /\ starts_with_ignoring_case prefix (userName u)
                    /\ num_lt (age u) nmax).
Proof.
  intros L st prefix smax nmax Hp Hmax. unfold get_api_users_search.
  destruct (RegExp_i_plain L prefix Hp) as (re & Hre & Htest).
  cbn [template]. rewrite Hre. unfold User_find.
  cbn [on_age on_userName age_clause cast_number_conds cast_number_cond].
  rewrite (castNumber_number L smax nmax Hmax).
  eexists. split; [reflexivity|].
  intros u. rewrite filter_In. simpl. rewrite !andb_true_r, andb_true_iff.
  rewrite Htest, num_ltb_lt. reflexivity.
Qed.

Lemma search_plain_prefix_witness :
  all_chars plain "Al" = true
  /\ casts_to_number decimal_externals "31" (num_of_Z 31)
  /\ exists found,
       get_api_users_search decimal_externals sample_store (Some "Al") (Some "31")
       = send (Users found)
       /\ (forall u, In u found <->
                     In u (users sample_store)
                     /\ starts_with_ignoring_case "Al" (userName u)
                     /\ num_lt (age u) (num_of_Z 31)).
Proof.
  assert (H31 : casts_to_number decimal_externals "31" (num_of_Z 31))
    by (apply decimal_casts; [discriminate | reflexivity]).
  split; [reflexivity|]. split; [exact H31|].
  exact (search_plain_prefix decimal_externals sample_store "Al" "31" _ eq_refl H31).
Defined.

(** C5, at an input where it fails.  The prefix is put into the
    pattern as it is: for the prefix "." the search answers with every
    sample user, none of whose names starts with a dot. *)
Theorem C5_dot_prefix_matches_every_name :
  forall (L : Externals),
    casts_to_number L "100" (num_of_Z 100) ->
    get_api_users_search L sample_store (Some ".") (Some "100")
      = send (Users [alice; albert; balrog])
    /\ (forall u, In u (users sample_store) ->
          ~ starts_with_ignoring_case "." (userName u) /\ num_lt (age u) (num_of_Z 100)).
Proof.
  intros L Hmax. split.
  - unfold get_api_users_search, User_find.
    cbn [template append RegExp_i atoms_of plain between code nat_of_ascii option_map].
    cbn [on_age on_userName age_clause cast_number_conds cast_number_cond].
    rewrite (castNumber_number L "100" _ Hmax). reflexivity.
  - intros u [<- | [<- | [<- | []]]]; (split; [intros [rest H]; discriminate | reflexivity]).
Qed.

Lemma C5_dot_prefix_matches_every_name_witness :
  casts_to_number decimal_externals "100" (num_of_Z 100)
  /\ get_api_users_search decimal_externals sample_store (Some ".") (Some "100")
     = send (Users [alice; albert; balrog]).
Proof.
  assert (H : casts_to_number decimal_externals "100" (num_of_Z 100))
    by (apply decimal_casts; [discriminate | reflexivity]).
  split; [exact H|].
  exact (proj1 (C5_dot_prefix_matches_every_name decimal_externals H)).
Defined.

(** C4, amended.  An empty [nameStartsWith] gives a name clause that
    every name satisfies.  An absent [nameStartsWith] gives the pattern
    [^undefined], satisfied exactly by the names that start with
    "undefined" in either case; an absent [maxAge] gives an age clause,
    [age < null], that no age satisfies; the request with both parameters
    absent is answered 200 with the empty list. *)
Theorem C4_empty_and_absent_parameters :
  forall (L : Externals) (st : store),
    (exists re, RegExp_i L ("^" ++ template (Some "")) = Some re
       /\ forall name, forallb (string_cond_holds name) (userName_clause re) = true)
    /\ (exists re, RegExp_i L ("^" ++ template None) = Some re
          /\ forall name, forallb (string_cond_holds name) (userName_clause re) = true
                          <-> starts_with_ignoring_case "undefined" name)
    /\ (exists cs, cast_number_conds L (age_clause None) = Ok cs
          /\ forall a, forallb (compare_holds a) cs = false)
    /\ get_api_users_search L st None None = send (Users []).
Proof.
  intros L st. split; [|split; [|split]].
  - eexists. split; [reflexivity|]. intros name. reflexivity.
  - destruct (RegExp_i_plain L "undefined" eq_refl) as (re & Hre & Htest).
    exists re. split; [exact Hre|]. intros name. simpl.
    rewrite andb_true_r. apply Htest.
  - eexists. split; [reflexivity|]. intros a. reflexivity.
  - unfold get_api_users_search, User_find. simpl. f_equal. f_equal.
    induction (users st) as [|u l IH]; simpl; [reflexivity|].
    rewrite andb_false_r. exact IH.
Qed.

(** C4 as stated fails: with both parameters absent the answer is the
    empty list although users are stored, and the name clause alone already
    refuses the name "Alice". *)
Lemma C4_counterexample :
  In alice (users sample_store)
  /\ (forall L : Externals,
        get_api_users_search L sample_store None None = send (Users []))
  /\ (forall L : Externals,
        exists re, RegExp_i L ("^" ++ template None) = Some re
                   /\ forallb (string_cond_holds (userName alice)) (userName_clause re) = false).
Proof.
  split; [left; reflexivity|]. split.
  - intros L. reflexivity.
  - intros L. eexists. split; reflexivity.
Qed.

(** ** Profile (claim C7) *)

(** C7, amended.  For an id that can be cast to an ObjectId, the
    profile answers 404 when no stored user has it, and otherwise 200 with
    the stored user and no populated path, since [userSchema] declares no
    [posts] reference; for an id that cannot be cast it answers 500. *)
Theorem C7_profile_of_user :
  forall (st : store) (id : string),
    (castObjectId id = None -> get_api_users_id_profile st id = server_error)
    /\ (forall o, castObjectId id = Some o ->
          (forall u, In u (users st) -> User_id u <> o) ->
          get_api_users_id_profile st id = send_status 404 "User not found")
    /\ (forall o, castObjectId id = Some o ->
          (exists u, In u (users st) /\ User_id u = o) ->
          exists u, In u (users st) /\ User_id u = o
                    /\ get_api_users_id_profile st id = send (Populated (UserDoc u) [])).
Proof.
  intros st id. unfold get_api_users_id_profile, User_findById. split; [|split].
  - intros ->. reflexivity.
  - intros o -> Hnone. rewrite find_no_user; [reflexivity|].
    intros u Hu Heq. apply (Hnone u Hu). congruence.
  - intros o -> (u & Hu & Hid).
    destruct (find (has_id_User o) (users st)) as [found|] eqn:E.
    + apply find_some in E. destruct E as [Hin Hsel]. apply String.eqb_eq in Hsel.
      exists found. split; [exact Hin|]. split; [exact Hsel | reflexivity].
    + rewrite find_none_iff in E. specialize (E u Hu). unfold has_id_User in E.
      apply String.eqb_neq in E. contradiction.
Qed.

Lemma C7_profile_of_user_witness :
  castObjectId id_a = Some id_a
  /\ (exists u, In u (users sample_store) /\ User_id u = id_a)
  /\ (exists u, In u (users sample_store) /\ User_id u = id_a
                /\ get_api_users_id_profile sample_store id_a = send (Populated (UserDoc u) []))
  /\ (forall u, In u (users sample_store) -> User_id u <> id_d)
  /\ get_api_users_id_profile sample_store id_d = send_status 404 "User not found".
Proof.
  assert (Ha : exists u, In u (users sample_store) /\ User_id u = id_a)
    by (exists alice; split; [left; reflexivity | reflexivity]).
  assert (Hd : forall u, In u (users sample_store) -> User_id u <> id_d)
    by by_sample_users.
  split; [reflexivity|]. split; [exact Ha|]. split; [|split; [exact Hd|]].
  - exact (proj2 (proj2 (C7_profile_of_user sample_store id_a)) id_a eq_refl Ha).
  - exact (proj1 (proj2 (C7_profile_of_user sample_store id_d)) id_d eq_refl Hd).
Defined.

(** C7 as stated fails: no user has the id "abc", and the answer is 500,
    not 404. *)
Lemma C7_counterexample :
  (forall u, In u (users sample_store) -> User_id u <> "abc")
  /\ get_api_users_id_profile sample_store "abc" = send_status 500 "Server error".
Proof.
  split; [|reflexivity].
  by_sample_users.
Qed.

(** ** Further properties of the handlers *)

(** A post that [POST /api/posts] creates belongs to a stored user. *)
Lemma created_post_has_owner :
  forall (L : Externals) (e : env) (st st' : store) (body : reqbody) (p : Post),
    post_api_posts L e st body = (send (Doc (PostDoc p)), st') ->
    exists u, In u (users st) /\ User_id u = userID p.
Proof.
  intros L e st st' body p H. unfold post_api_posts in H.
  destruct (validate L postValidationSchema body) as [details|] eqn:E.
  { destruct (validation_failure_400 L _ _ _ E) as (d & _ & Hd).
    rewrite Hd in H. discriminate. }
  destruct (valid_post_body L body E) as (m & t & c & u & -> & Ht & Hc & Hu & _ & Hd).
  simpl in H. rewrite Hu in H. unfold User_findById in H.
  destruct (castObjectId u) as [o|] eqn:Ho; [|discriminate].
  destruct (find (has_id_User o) (users st)) as [owner|] eqn:Ef; [|discriminate].
  unfold new_Post in H. simpl in H. rewrite Ht, Hc, Hu, Hd in H. simpl in H.
  rewrite Ho in H. simpl in H. unfold Post_insert in H. simpl in H.
  destruct (existsb (has_id_Post (newId e)) (posts st)); [discriminate|].
  injection H as <- _. simpl.
  apply find_some in Ef. destruct Ef as [Hin Hsel]. apply String.eqb_eq in Hsel.
  exists owner. split; assumption.
Qed.

Lemma created_post_has_owner_witness :
  post_api_posts decimal_externals sample_env sample_store (post_body "T" "C" id_b)
  = (send (Doc (PostDoc {| Post_id := newId sample_env; title := "T"; content := "C";
                           userID := id_b; date := now sample_env |})),
     {| users := users sample_store;
        posts := posts sample_store ++
                 [ {| Post_id := newId sample_env; title := "T"; content := "C";
                      userID := id_b; date := now sample_env |} ] |})
  /\ exists u, In u (users sample_store) /\ User_id u = id_b.
Proof.
  split; [reflexivity|].
  exact (created_post_has_owner decimal_externals sample_env sample_store _
           (post_body "T" "C" id_b) _ eq_refl).
Defined.

(** Updating a user whose id no stored user has answers 404 and changes
    nothing. *)
Lemma put_unknown_user_not_found :
  forall (L : Externals) (st : store) (id : string) (body : reqbody) (o : ObjectId),
    validate L userValidationSchema body = None ->
    castObjectId id = Some o ->
    (forall u, In u (users st) -> User_id u <> o) ->
    put_api_users_id L st id body = (send_status 404 "User not found", st).
Proof.
  intros L st id body o Hval Ho Hnone.
  unfold put_api_users_id, User_findByIdAndUpdate. rewrite Hval, Ho.
  rewrite find_no_user; [reflexivity|].
  intros u Hu Heq. apply (Hnone u Hu). congruence.
Qed.

Lemma put_unknown_user_not_found_witness :
  validate decimal_externals userValidationSchema (user_body "Carol" "carol@example.com" 25)
  = None
  /\ castObjectId id_d = Some id_d
  /\ (forall u, In u (users sample_store) -> User_id u <> id_d)
  /\ put_api_users_id decimal_externals sample_store id_d
       (user_body "Carol" "carol@example.com" 25)
     = (send_status 404 "User not found", sample_store).
Proof.
  assert (Hd : forall u, In u (users sample_store) -> User_id u <> id_d)
    by by_sample_users.
  split; [reflexivity|]. split; [reflexivity|]. split; [exact Hd|].
  exact (put_unknown_user_not_found decimal_externals sample_store id_d
           (user_body "Carol" "carol@example.com" 25) id_d eq_refl eq_refl Hd).
Defined.

Lemma insert_by_date_perm : forall p l, Permutation (p :: l) (insert_by_date p l).
Proof.
  intros p l. induction l as [|q l IH]; simpl; [apply Permutation_refl|].
  destruct (date q <? date p)%Z; [apply Permutation_refl|].
  eapply Permutation_trans; [apply perm_swap|]. apply perm_skip. exact IH.
Qed.

Lemma insert_by_date_sorted : forall p l,
  Sorted (fun a b => (date b <= date a)%Z) l ->
  Sorted (fun a b => (date b <= date a)%Z) (insert_by_date p l).
Proof.
  intros p l H. induction H as [|q l Hs IH Hq]; simpl.
  - constructor; constructor.
  - destruct (date q <? date p)%Z eqn:E.
    + apply Z.ltb_lt in E. constructor; [constructor; assumption|].
      constructor. lia.
    + apply Z.ltb_ge in E. constructor; [exact IH|].
      destruct Hq as [|r l Hr]; simpl.
      * constructor. exact E.
      * destruct (date r <? date p)%Z; constructor; assumption.
Qed.

(** The sorted listing holds the stored posts, each once, with dates that
    never increase from one post to the next. *)
Lemma sorted_posts_descend :
  forall st : store,
    exists l, get_api_posts_sort st = send (Posts l)
              /\ Permutation (posts st) l
              /\ Sorted (fun a b => (date b <= date a)%Z) l.
Proof.
  intros st. exists (sort_date_descending (posts st)). split; [reflexivity|].
  unfold sort_date_descending. induction (posts st) as [|p l [IHp IHs]]; simpl.
  - split; constructor.
  - split.
    + eapply Permutation_trans; [apply perm_skip; exact IHp | apply insert_by_date_perm].
    + apply insert_by_date_sorted. exact IHs.
Qed.

(** ** Every cast ObjectId is well formed *)

Lemma code_ascii_of_nat : forall n, (n < 256)%nat -> code (ascii_of_nat n) = n.
Proof.
  intros n H. unfold code. apply nat_ascii_embedding. exact H.
Qed.

Lemma code_bounded : forall c, (code c < 256)%nat.
Proof.
  intros c. unfold code. apply nat_ascii_bounded.
Qed.

Lemma between_iff : forall lo hi c,
  between lo hi c = true <-> (lo <= code c <= hi)%nat.
Proof.
  intros lo hi c. unfold between. rewrite andb_true_iff, !Nat.leb_le. reflexivity.
Qed.

Lemma is_lower_hex_iff : forall c,
  is_lower_hex c = true <-> (48 <= code c <= 57 \/ 97 <= code c <= 102)%nat.
Proof.
  intros c. unfold is_lower_hex. rewrite orb_true_iff, !between_iff. reflexivity.
Qed.

Lemma to_lower_hex : forall c, is_hex c = true -> is_lower_hex (to_lower c) = true.
Proof.
  intros c H. unfold is_hex in H. apply orb_true_iff in H.
  unfold to_lower. destruct (between 65 90 c) eqn:E.
  - apply between_iff in E. apply is_lower_hex_iff.
    rewrite code_ascii_of_nat by lia.
    destruct H as [H | H].
    + apply is_lower_hex_iff in H. lia.
    + apply between_iff in H. lia.
  - destruct H as [H | H]; [exact H|].
    apply between_iff in H.
    assert (Hn : between 65 90 c = true) by (apply between_iff; lia).
    congruence.
Qed.

Lemma hex_digit_lower : forall n, (n < 16)%nat -> is_lower_hex (hex_digit n) = true.
Proof.
  intros n H. apply is_lower_hex_iff. unfold hex_digit.
  destruct (n <? 10)%nat eqn:E.
  - apply Nat.ltb_lt in E. rewrite code_ascii_of_nat by lia. lia.
  - apply Nat.ltb_ge in E. rewrite code_ascii_of_nat by lia. lia.
Qed.

Lemma lowercase_hex : forall s,
  all_chars is_hex s = true ->
  all_chars is_lower_hex (lowercase s) = true
  /\ String.length (lowercase s) = String.length s.
Proof.
  induction s as [|c s IH]; simpl; intros H; [split; reflexivity|].
  apply andb_true_iff in H. destruct H as [Hc Hs].
  destruct (IH Hs) as [IH1 IH2]. rewrite (to_lower_hex c Hc), IH1, IH2.
  split; reflexivity.
Qed.

Lemma hex_of_bytes_lower : forall s,
  all_chars is_lower_hex (hex_of_bytes s) = true
  /\ String.length (hex_of_bytes s) = (2 * String.length s)%nat.
Proof.
  induction s as [|c s [IH1 IH2]]; [split; reflexivity|].
  cbn [hex_of_bytes all_chars String.length].
  pose proof (code_bounded c) as Hc.
  rewrite (hex_digit_lower (code c / 16)), (hex_digit_lower (code c mod 16)), IH1, IH2.
  - split; [reflexivity | lia].
  - apply Nat.mod_upper_bound. discriminate.
  - apply Nat.Div0.div_lt_upper_bound. lia.
Qed.

(** What [castObjectId] yields is an ObjectId in its printed form, which
    is cast to itself. *)
Lemma castObjectId_well_formed : forall s o,
  castObjectId s = Some o -> is_ObjectId o = true /\ castObjectId o = Some o.
Proof.
  intros s o H.
  assert (Ho : is_ObjectId o = true).
  { unfold castObjectId in H. unfold is_ObjectId.
    destruct ((String.length s =? 24)%nat && all_chars is_hex s) eqn:E.
    - injection H as <-. apply andb_true_iff in E. destruct E as [El Eh].
      destruct (lowercase_hex s Eh) as [-> ->]. rewrite El. reflexivity.
    - destruct (String.length s =? 12)%nat eqn:E12; [|discriminate].
      injection H as <-. apply Nat.eqb_eq in E12.
      destruct (hex_of_bytes_lower s) as [-> ->]. rewrite E12. reflexivity. }
  split; [exact Ho | apply castObjectId_toString; exact Ho].
Qed.

(** ** The bodies that the validation admits *)

Lemma is_integer_whole : forall q,
  is_integer q = true -> (q == inject_Z (Qnum (Qred q)))%Q.
Proof.
  intros q H. unfold is_integer in H. apply Z.eqb_eq in H.
  rewrite <- (Qred_correct q) at 1.
  destruct (Qred q) as [n d]. simpl in *. injection H as ->. reflexivity.
Qed.

Lemma Qred_inject_Z : forall z, Qred (inject_Z z) = inject_Z z.
Proof.
  intros z. unfold inject_Z, Qred.
  pose proof (Z.ggcd_gcd z 1) as Hg. pose proof (Z.ggcd_correct_divisors z 1) as Hd.
  destruct (Z.ggcd z 1) as [g [a b]]. simpl in Hg, Hd.
  rewrite Z.gcd_1_r in Hg. subst g. destruct Hd as [Ha Hb].
  rewrite Z.mul_1_l in Ha, Hb. subst a b. reflexivity.
Qed.

Lemma whole_is_integer : forall q z, (q == inject_Z z)%Q -> is_integer q = true.
Proof.
  intros q z H. unfold is_integer. rewrite (Qred_complete _ _ H), Qred_inject_Z. reflexivity.
Qed.

Lemma unsafe_false_iff : forall q,
  unsafe q = false <->
  (inject_Z (- MAX_SAFE_INTEGER) <= q /\ q <= inject_Z MAX_SAFE_INTEGER)%Q.
Proof.
  intros q. unfold unsafe. rewrite orb_false_iff, !negb_false_iff, !Qle_bool_iff. tauto.
Qed.

(** The three checks on [age] say that it is a whole number in range. *)
Lemma age_checks_iff : forall q,
  unsafe q = false /\ is_integer q = true /\ Qle_bool (inject_Z 0) q = true
  <-> whole_age (Finite q).
Proof.
  intros q. split.
  - intros (Hs & Hi & Hm). apply unsafe_false_iff in Hs. destruct Hs as [_ Hs].
    apply Qle_bool_iff in Hm. pose proof (is_integer_whole q Hi) as Hq.
    exists q, (Qnum (Qred q)). split; [reflexivity|]. split; [exact Hq|].
    rewrite Hq in Hs, Hm. rewrite <- Zle_Qle in Hs, Hm. lia.
  - intros (q' & z & Heq & Hq & Hz). injection Heq as <-.
    split; [|split].
    + apply unsafe_false_iff. rewrite Hq, <- !Zle_Qle. unfold MAX_SAFE_INTEGER in *. lia.
    + exact (whole_is_integer q z Hq).
    + apply Qle_bool_iff. rewrite Hq, <- Zle_Qle. lia.
Qed.

Section AdmittedBodies.

Variable L : Externals.

Lemma required_string_iff : forall k v,
  validate_value L true k (Joi.required Joi.string) v = []
  <-> exists s, v = Some (JStr s) /\ s <> "".
Proof.
  intros k v. split.
  - apply required_string_ok.
  - intros (s & -> & Hs). destruct s; [congruence | reflexivity].
Qed.

Lemma required_email_iff : forall k v,
  validate_value L true k (Joi.required (Joi.email Joi.string)) v = []
  <-> exists s, v = Some (JStr s) /\ s <> "" /\ joi_email L s = true.
Proof.
  intros k v. unfold validate_value. simpl. split.
  - intros H. destruct v as [[| | |s| |]|]; try discriminate.
    destruct s as [|c s]; [discriminate|].
    destruct (joi_email L (String c s)) eqn:E; [|discriminate].
    eexists. split; [reflexivity|]. split; [discriminate | exact E].
  - intros (s & -> & Hs & He). destruct s; [congruence|]. rewrite He. reflexivity.
Qed.

Lemma required_age_iff : forall k v,
  validate_value L true k (Joi.required (Joi.min 0 (Joi.integer Joi.number))) v = []
  <-> exists x q, v = Some x /\ coerce_number L x = Some (Finite q) /\ whole_age (Finite q).
Proof.
  intros k v. unfold validate_value. simpl. split.
  - intros H. destruct v as [x|]; [|discriminate].
    destruct (coerce_number L x) as [[q| | |]|] eqn:E; try discriminate.
    exists x, q. split; [reflexivity|]. split; [exact E|].
    apply age_checks_iff.
    destruct (unsafe q); [discriminate|].
    destruct (is_integer q); [|discriminate].
    destruct (Qle_bool (inject_Z 0) q); [|discriminate].
    repeat split.
  - intros (x & q & -> & -> & Hq). apply age_checks_iff in Hq.
    destruct Hq as (-> & -> & ->). reflexivity.
Qed.

Lemma coerced_is_cast : forall x q,
  coerce_number L x = Some (Finite q) -> cast_Number L x = Some (Finite q).
Proof.
  intros x q E. unfold coerce_number in E. destruct x as [| |n|s| |]; try discriminate.
  - injection E as ->. reflexivity.
  - destruct (joi_numeric L s) eqn:En; [|discriminate]. injection E as E.
    destruct s.
    + rewrite (joi_numeric_empty L) in En. discriminate.
    + simpl. rewrite E. reflexivity.
Qed.

Lemma validate_keys_all : forall keys m,
  (forall k sch, In (k, sch) keys -> validate_value L true k sch (assoc k m) = []) ->
  validate_keys L true keys m = [].
Proof.
  intros keys m. induction keys as [|[k sch] keys IH]; simpl; intros H; [reflexivity|].
  rewrite (H k sch (or_introl eq_refl)). apply IH. intros k' sch' Hin. apply H. right. exact Hin.
Qed.

Lemma unknown_keys_none : forall keys m,
  (forall k, In k (map fst m) -> declared keys k = true) -> unknown_keys true keys m = [].
Proof.
  intros keys m. induction m as [|[k v] m IH]; simpl; intros H; [reflexivity|].
  rewrite (H k (or_introl eq_refl)). apply IH. intros k' Hin. apply H. right. exact Hin.
Qed.

(** A body is valid exactly when it is an object, each declared key passes,
    and no other key is present. *)
Lemma validate_none_exactly : forall keys b,
  validate L keys b = None <->
  exists m, b = BObj m /\
    (forall k sch, In (k, sch) keys -> validate_value L true k sch (assoc k m) = []) /\
    (forall k, In k (map fst m) -> declared keys k = true).
Proof.
  intros keys b. split; [apply validate_ok|].
  intros (m & -> & Hk & Hu). unfold validate. simpl.
  rewrite (validate_keys_all keys m Hk), (unknown_keys_none keys m Hu). reflexivity.
Qed.

Lemma valid_post_body_fields : forall b,
  validate L postValidationSchema b = None ->
  exists m t c u,
    b = BObj m
    /\ assoc "title" m = Some (JStr t) /\ t <> ""
    /\ assoc "content" m = Some (JStr c) /\ c <> ""
    /\ assoc "userID" m = Some (JStr u) /\ u <> ""
    /\ (forall k, In k (map fst m) -> k = "title" \/ k = "content" \/ k = "userID").
Proof.
  intros b Hval. apply validate_none_exactly in Hval. destruct Hval as (m & -> & Hk & Hu).
  destruct (proj1 (required_string_iff "title" _) (Hk _ _ (or_introl eq_refl)))
    as (t & Ht & Ht').
  destruct (proj1 (required_string_iff "content" _)
              (Hk _ _ (or_intror (or_introl eq_refl)))) as (c & Hc & Hc').
  destruct (proj1 (required_string_iff "userID" _)
              (Hk _ _ (or_intror (or_intror (or_introl eq_refl))))) as (u & Hu0 & Hu').
  exists m, t, c, u. repeat (split; [reflexivity || assumption|]).
  intros k Hin. specialize (Hu k Hin). unfold declared in Hu. simpl in Hu.
  rewrite !orb_true_iff, !String.eqb_eq in Hu.
  destruct Hu as [H | [H | [H | H]]]; auto; discriminate.
Qed.

(** The post bodies that pass: objects with a non-empty string for each of
    [title], [content] and [userID], and no other key. *)
Lemma valid_post_body_exactly :
  forall b : reqbody,
    validate L postValidationSchema b = None <->
    exists m t c u,
      b = BObj m
      /\ assoc "title" m = Some (JStr t) /\ t <> ""
      /\ assoc "content" m = Some (JStr c) /\ c <> ""
      /\ assoc "userID" m = Some (JStr u) /\ u <> ""
      /\ (forall k, In k (map fst m) -> k = "title" \/ k = "content" \/ k = "userID").
Proof.
  intros b. split; [apply valid_post_body_fields|].
  intros (m & t & c & u & -> & Ht & Ht' & Hc & Hc' & Hu & Hu' & Hkeys).
  apply validate_none_exactly. exists m. split; [reflexivity|]. split.
  - intros k sch [H | [H | [H | []]]]; injection H as <- <-;
      apply required_string_iff; eauto.
  - intros k Hin. unfold declared. simpl. rewrite !orb_true_iff, !String.eqb_eq.
    destruct (Hkeys k Hin) as [-> | [-> | ->]]; auto.
Qed.

Lemma valid_user_body_fields : forall b,
  validate L userValidationSchema b = None ->
  exists m n mail p x q g ph,
    b = BObj m
    /\ assoc "userName" m = Some (JStr n) /\ n <> ""
    /\ assoc "email" m = Some (JStr mail) /\ mail <> "" /\ joi_email L mail = true
    /\ assoc "password" m = Some (JStr p) /\ p <> ""
    /\ assoc "age" m = Some x /\ coerce_number L x = Some (Finite q)
    /\ whole_age (Finite q)
    /\ assoc "gender" m = Some (JStr g) /\ g <> ""
    /\ assoc "phone" m = Some (JStr ph) /\ ph <> ""
    /\ (forall k, In k (map fst m) ->
          In k ["userName"; "email"; "password"; "age"; "gender"; "phone"]).
Proof.
  intros b Hval. apply validate_none_exactly in Hval. destruct Hval as (m & -> & Hk & Hu).
  destruct (proj1 (required_string_iff "userName" _) (Hk "userName" _ (or_introl eq_refl)))
    as (n & Hn & Hn').
  destruct (proj1 (required_email_iff "email" (assoc "email" m)))
    as (mail & Hm & Hm' & Hm''); [apply Hk; simpl; auto|].
  destruct (proj1 (required_string_iff "password" (assoc "password" m)))
    as (p & Hp & Hp'); [apply Hk; simpl; auto|].
  destruct (proj1 (required_age_iff "age" (assoc "age" m)))
    as (x & q & Hx & Hq & Hq'); [apply Hk; simpl; auto 6|].
  destruct (proj1 (required_string_iff "gender" (assoc "gender" m)))
    as (g & Hg & Hg'); [apply Hk; simpl; auto 7|].
  destruct (proj1 (required_string_iff "phone" (assoc "phone" m)))
    as (ph & Hph & Hph'); [apply Hk; simpl; auto 8|].
  exists m, n, mail, p, x, q, g, ph. repeat (split; [reflexivity || assumption|]).
  intros k Hin. specialize (Hu k Hin). unfold declared in Hu. simpl in Hu.
  rewrite !orb_true_iff, !String.eqb_eq in Hu. simpl.
  repeat (destruct Hu as [Hu | Hu]; [auto 10|]). discriminate.
Qed.

(** The user bodies that pass: objects with a non-empty string for each
    text field, an [email] that Joi takes for an address, an [age] that is
    (or, as a numeric string, stands for) a whole number from 0 to the
    largest safe integer, and no other key. *)
Lemma valid_user_body_exactly :
  forall b : reqbody,
    validate L userValidationSchema b = None <->
    exists m n mail p x q g ph,
      b = BObj m
      /\ assoc "userName" m = Some (JStr n) /\ n <> ""
      /\ assoc "email" m = Some (JStr mail) /\ mail <> "" /\ joi_email L mail = true
      /\ assoc "password" m = Some (JStr p) /\ p <> ""
      /\ assoc "age" m = Some x /\ coerce_number L x = Some (Finite q)
      /\ whole_age (Finite q)
      /\ assoc "gender" m = Some (JStr g) /\ g <> ""
      /\ assoc "phone" m = Some (JStr ph) /\ ph <> ""
      /\ (forall k, In k (map fst m) ->
            In k ["userName"; "email"; "password"; "age"; "gender"; "phone"]).
Proof.
  intros b. split; [apply valid_user_body_fields|].
  intros (m & n & mail & p & x & q & g & ph & -> & Hn & Hn' & Hm & Hm' & Hm'' & Hp & Hp'
          & Hx & Hq & Hq' & Hg & Hg' & Hph & Hph' & Hkeys).
  apply validate_none_exactly. exists m. split; [reflexivity|]. split.
  - intros k sch [H | [H | [H | [H | [H | [H | []]]]]]]; injection H as <- <-.
    + apply required_string_iff; eauto.
    + apply required_email_iff; eauto.
    + apply required_string_iff; eauto.
    + apply required_age_iff; eauto.
    + apply required_string_iff; eauto.
    + apply required_string_iff; eauto.
  - intros k Hin. unfold declared. simpl. rewrite !orb_true_iff, !String.eqb_eq.
    specialize (Hkeys k Hin). simpl in Hkeys. intuition auto.
Qed.

End AdmittedBodies.

(** ** What a writing handler can do *)

Section Outcomes.

Variable L : Externals.

Lemma validation_failure_status : forall keys b details,
  validate L keys b = Some details -> status (validation_failure details) = 400%Z.
Proof.
  intros keys b details H. destruct (validation_failure_400 L _ _ _ H) as (d & _ & ->).
  reflexivity.
Qed.

(** Signup either refuses and writes nothing, or appends the user built
    from the valid body, whose id and email no stored user has. *)
Lemma signup_outcome : forall e st body r st',
  post_api_users_signup L e st body = (r, st') ->
  (st' = st /\ (status r = 400 \/ status r = 500)%Z)
  \/ exists user,
       validate L userValidationSchema body = None
       /\ new_User L e body = Some user
       /\ existsb (has_id_User (User_id user)) (users st) = false
       /\ existsb (fun u' => String.eqb (email u') (email user)) (users st) = false
       /\ r = send (Doc (UserDoc user))
       /\ st' = {| users := users st ++ [user]; posts := posts st |}.
Proof.
  intros e st body r st' H. unfold post_api_users_signup in H.
  destruct (validate L userValidationSchema body) as [details|] eqn:E.
  { injection H as <- <-. left. split; [reflexivity|]. left.
    exact (validation_failure_status _ _ _ E). }
  destruct (User_findOne_email st (body_prop body "email")) as [[found|]|];
    try (injection H as <- <-; left; split; [reflexivity | simpl; auto]).
  destruct (new_User L e body) as [user|];
    [|injection H as <- <-; left; split; [reflexivity | simpl; auto]].
  unfold User_insert in H.
  destruct (existsb (has_id_User (User_id user)) (users st)) eqn:E1;
    [injection H as <- <-; left; split; [reflexivity | simpl; auto]|].
  destruct (existsb (fun u' => String.eqb (email u') (email user)) (users st)) eqn:E2;
    [injection H as <- <-; left; split; [reflexivity | simpl; auto]|].
  simpl in H. injection H as <- <-. right. exists user. repeat split; assumption.
Qed.

(** An update of a user either refuses and writes nothing, or replaces
    the user of that id by the user that the valid body sets, whose email
    no other user has. *)
Lemma put_user_outcome : forall st id body r st',
  put_api_users_id L st id body = (r, st') ->
  (st' = st /\ (status r = 400 \/ status r = 404 \/ status r = 500)%Z)
  \/ exists o u u',
       validate L userValidationSchema body = None
       /\ castObjectId id = Some o
       /\ find (has_id_User o) (users st) = Some u
       /\ User_set L body u = Some u'
       /\ (forall x, In x (users st) -> has_id_User o x = false -> email x <> email u')
       /\ r = send (Doc (UserDoc u'))
       /\ st' = {| users := replace_first (has_id_User o) u' (users st);
                   posts := posts st |}.
Proof.
  intros st id body r st' H. unfold put_api_users_id in H.
  destruct (validate L userValidationSchema body) as [details|] eqn:E.
  { injection H as <- <-. left. split; [reflexivity|]. left.
    exact (validation_failure_status _ _ _ E). }
  unfold User_findByIdAndUpdate in H.
  destruct (castObjectId id) as [o|] eqn:Ho;
    [|injection H as <- <-; left; split; [reflexivity | simpl; auto]].
  destruct (find (has_id_User o) (users st)) as [u|] eqn:Ef;
    [|injection H as <- <-; left; split; [reflexivity | simpl; auto]].
  destruct (User_set L body u) as [u'|] eqn:Es;
    [|injection H as <- <-; left; split; [reflexivity | simpl; auto]].
  destruct (existsb (fun x => negb (has_id_User o x) && String.eqb (email x) (email u'))
              (users st)) eqn:Ee;
    [injection H as <- <-; left; split; [reflexivity | simpl; auto]|].
  injection H as <- <-. right. exists o, u, u'. repeat (split; [reflexivity || assumption|]).
  split; [|split; reflexivity].
  intros x Hx Hid. rewrite existsb_false_iff in Ee. specialize (Ee x Hx). simpl in Ee.
  rewrite Hid in Ee. simpl in Ee. apply String.eqb_neq. exact Ee.
Qed.

Lemma delete_user_outcome : forall st id r st',
  delete_api_users_id st id = (r, st') ->
  (st' = st /\ (status r = 404 \/ status r = 500)%Z)
  \/ exists o u,
       castObjectId id = Some o
       /\ find (has_id_User o) (users st) = Some u
       /\ r = send (Doc (UserDoc u))
       /\ st' = {| users := remove_first (has_id_User o) (users st); posts := posts st |}.
Proof.
  intros st id r st' H. unfold delete_api_users_id, User_findByIdAndDelete in H.
  destruct (castObjectId id) as [o|] eqn:Ho;
    [|injection H as <- <-; left; split; [reflexivity | simpl; auto]].
  destruct (find (has_id_User o) (users st)) as [u|] eqn:Ef;
    [|injection H as <- <-; left; split; [reflexivity | simpl; auto]].
  injection H as <- <-. right. exists o, u. repeat split; assumption.
Qed.

Lemma new_Post_owner : forall e st body post owner u,
  body_prop body "userID" = Some (JStr u) ->
  User_findById st u = Ok (Some owner) ->
  new_Post L e body = Some post ->
  In owner (users st) /\ User_id owner = userID post.
Proof.
  intros e st body post owner u Eu Ef En. unfold User_findById in Ef.
  destruct (castObjectId u) as [o|] eqn:Ho; [|discriminate].
  injection Ef as Ef. apply find_some in Ef. destruct Ef as [Hin Hsel].
  apply String.eqb_eq in Hsel. split; [exact Hin|].
  unfold new_Post in En. rewrite Eu in En.
  destruct (bind (body_prop body "title") cast_String); simpl in En; [|discriminate].
  destruct (bind (body_prop body "content") cast_String); simpl in En; [|discriminate].
  rewrite Ho in En. simpl in En.
  destruct (match body_prop body "date" with
            | Some v => cast_Date L v
            | None => Some (now e)
            end); simpl in En; [|discriminate].
  injection En as <-. exact Hsel.
Qed.

(** The creation of a post either refuses and writes nothing, or appends
    the post built from the valid body, for an owner that is stored. *)
Lemma post_posts_outcome : forall e st body r st',
  post_api_posts L e st body = (r, st') ->
  (st' = st /\ (status r = 400 \/ status r = 404 \/ status r = 500)%Z)
  \/ exists post owner,
       validate L postValidationSchema body = None
       /\ new_Post L e body = Some post
       /\ In owner (users st) /\ User_id owner = userID post
       /\ existsb (has_id_Post (Post_id post)) (posts st) = false
       /\ r = send (Doc (PostDoc post))
       /\ st' = {| users := users st; posts := posts st ++ [post] |}.
Proof.
  intros e st body r st' H. unfold post_api_posts in H.
  destruct (validate L postValidationSchema body) as [details|] eqn:E.
  { injection H as <- <-. left. split; [reflexivity|]. left.
    exact (validation_failure_status _ _ _ E). }
  destruct (body_prop body "userID") as [[| | |u| |]|] eqn:Eu;
    try (injection H as <- <-; left; split; [reflexivity | simpl; auto]).
  destruct (User_findById st u) as [[owner|]|] eqn:Ef;
    try (injection H as <- <-; left; split; [reflexivity | simpl; auto]).
  destruct (new_Post L e body) as [post|] eqn:En;
    [|injection H as <- <-; left; split; [reflexivity | simpl; auto]].
  unfold Post_insert in H.
  destruct (existsb (has_id_Post (Post_id post)) (posts st)) eqn:E1;
    [injection H as <- <-; left; split; [reflexivity | simpl; auto]|].
  injection H as <- <-. right.
  destruct (new_Post_owner e st body post owner u Eu Ef En) as [Hin Hid].
  exists post, owner. repeat (split; [reflexivity || assumption|]). split; reflexivity.
Qed.

(** The deletion of a post either refuses and writes nothing, or removes
    the post of that id, whose [userID] the body carries. *)
Lemma delete_post_outcome : forall st id body r st',
  delete_api_posts_id st id body = (r, st') ->
  (st' = st /\ (status r = 403 \/ status r = 404 \/ status r = 500)%Z)
  \/ exists o p,
       castObjectId id = Some o
       /\ find (has_id_Post o) (posts st) = Some p
       /\ body_prop body "userID" = Some (JStr (userID p))
       /\ r = send (Doc (PostDoc p))
       /\ st' = {| users := users st; posts := remove_first (has_id_Post o) (posts st) |}.
Proof.
  intros st id body r st' H. unfold delete_api_posts_id, Post_findById in H.
  destruct (castObjectId id) as [o|] eqn:Ho;
    [|injection H as <- <-; left; split; [reflexivity | simpl; auto]].
  destruct (find (has_id_Post o) (posts st)) as [p|] eqn:Ef;
    [|injection H as <- <-; left; split; [reflexivity | simpl; auto]].
  destruct (not_owner p body) eqn:Hno;
    [injection H as <- <-; left; split; [reflexivity | simpl; auto]|].
  injection H as <- <-. right. exists o, p.
  repeat (split; [reflexivity || assumption || (apply owner_userID; assumption)|]).
  unfold Post_remove. apply find_some in Ef. destruct Ef as [_ Hsel].
  apply String.eqb_eq in Hsel. rewrite Hsel. reflexivity.
Qed.

(** The update of a post either refuses and writes nothing, or replaces
    the post of that id by the post that the valid body sets. *)
Lemma put_post_outcome : forall st id body r st',
  put_api_posts_id L st id body = (r, st') ->
  (st' = st /\ (status r = 400 \/ status r = 403 \/ status r = 404 \/ status r = 500)%Z)
  \/ exists o p p',
       validate L postValidationSchema body = None
       /\ castObjectId id = Some o
       /\ find (has_id_Post o) (posts st) = Some p
       /\ body_prop body "userID" = Some (JStr (userID p))
       /\ Post_set L body p = Some p'
       /\ r = send (Doc (PostDoc p'))
       /\ st' = {| users := users st; posts := replace_first (has_id_Post o) p' (posts st) |}.
Proof.
  intros st id body r st' H. unfold put_api_posts_id in H.
  destruct (validate L postValidationSchema body) as [details|] eqn:E.
  { injection H as <- <-. left. split; [reflexivity|]. left.
    exact (validation_failure_status _ _ _ E). }
  unfold Post_findById in H.
  destruct (castObjectId id) as [o|] eqn:Ho;
    [|injection H as <- <-; left; split; [reflexivity | simpl; auto]].
  destruct (find (has_id_Post o) (posts st)) as [p|] eqn:Ef;
    [|injection H as <- <-; left; split; [reflexivity | simpl; auto]].
  destruct (not_owner p body) eqn:Hno;
    [injection H as <- <-; left; split; [reflexivity | simpl; auto]|].
  destruct (Post_set L body p) as [p'|] eqn:Es;
    [|injection H as <- <-; left; split; [reflexivity | simpl; auto 6]].
  injection H as <- <-. right. exists o, p, p'.
  repeat (split; [reflexivity || assumption || (apply owner_userID; assumption)|]).
  unfold Post_save.
  assert (Hid : Post_id p' = o).
  { unfold Post_set in Es.
    destruct (assign cast_String (body_prop body "title") (title p)); simpl in Es;
      [|discriminate].
    destruct (assign cast_String (body_prop body "content") (content p)); simpl in Es;
      [|discriminate].
    destruct (assign cast_ObjectId (body_prop body "userID") (userID p)); simpl in Es;
      [|discriminate].
    destruct (assign (cast_Date L) (body_prop body "date") (date p)); simpl in Es;
      [|discriminate].
    injection Es as <-. simpl. apply find_some in Ef. destruct Ef as [_ Hsel].
    apply String.eqb_eq. exact Hsel. }
  rewrite Hid. reflexivity.
Qed.

End Outcomes.

(** ** Refusals and statuses *)

(** A request that is not answered 200 leaves the store as it was. *)
Lemma refused_request_writes_nothing :
  forall (L : Externals) (e : env) (st st' : store) (r : request) (resp : response),
    handle L e st r = (resp, st') ->
    status resp <> 200%Z ->
    st' = st.
Proof.
  intros L e st st' r resp H Hs. destruct r; simpl in H;
    try (injection H as _ <-; reflexivity).
  - destruct (signup_outcome L _ _ _ _ _ H) as [[-> _] | (u & _ & _ & _ & _ & -> & _)];
      [reflexivity | contradiction Hs; reflexivity].
  - destruct (put_user_outcome L _ _ _ _ _ H)
      as [[-> _] | (o & u & u' & _ & _ & _ & _ & _ & -> & _)];
      [reflexivity | contradiction Hs; reflexivity].
  - destruct (delete_user_outcome _ _ _ _ H) as [[-> _] | (o & u & _ & _ & -> & _)];
      [reflexivity | contradiction Hs; reflexivity].
  - destruct (post_posts_outcome L _ _ _ _ _ H)
      as [[-> _] | (p & u & _ & _ & _ & _ & _ & -> & _)];
      [reflexivity | contradiction Hs; reflexivity].
  - destruct (delete_post_outcome _ _ _ _ _ H) as [[-> _] | (o & p & _ & _ & _ & -> & _)];
      [reflexivity | contradiction Hs; reflexivity].
  - destruct (put_post_outcome L _ _ _ _ _ H)
      as [[-> _] | (o & p & p' & _ & _ & _ & _ & _ & -> & _)];
      [reflexivity | contradiction Hs; reflexivity].
Qed.

Lemma refused_request_writes_nothing_witness :
  handle decimal_externals sample_env sample_store
    (DELETE_api_posts_id id_d (post_body "T" "C" id_b))
  = (send_status 403 "You are not authorized to delete this post", sample_store)
  /\ status (send_status 403 "You are not authorized to delete this post") <> 200%Z
  /\ sample_store = sample_store.
Proof.
  assert (Hs : status (send_status 403 "You are not authorized to delete this post") <> 200%Z)
    by discriminate.
  split; [reflexivity|]. split; [exact Hs|].
  exact (refused_request_writes_nothing decimal_externals sample_env sample_store sample_store
           (DELETE_api_posts_id id_d (post_body "T" "C" id_b)) _ eq_refl Hs).
Defined.


(** ** The store stays well formed *)

Lemma In_remove_first : forall (A : Type) (sel : A -> bool) (l : list A) (z : A),
  In z (remove_first sel l) -> In z l.
Proof.
  intros A sel l z. induction l as [|a l IH]; simpl; [contradiction|].
  destruct (sel a); simpl; [auto|]. intros [H | H]; auto.
Qed.

Lemma NoDup_map_remove_first : forall (A B : Type) (f : A -> B) (sel : A -> bool) (l : list A),
  NoDup (map f l) -> NoDup (map f (remove_first sel l)).
Proof.
  intros A B f sel l. induction l as [|a l IH]; simpl; intros H; [constructor|].
  inversion H as [|x xs Hnotin Hnd]; subst.
  destruct (sel a); [exact Hnd|]. simpl. constructor; [|apply IH; exact Hnd].
  intros Hin. apply Hnotin. apply in_map_iff in Hin. destruct Hin as (z & Hz & Hin).
  apply in_map_iff. exists z. split; [exact Hz|]. eapply In_remove_first. exact Hin.
Qed.

Lemma map_replace_first : forall (A B : Type) (f : A -> B) (sel : A -> bool) (y : A) (l : list A),
  (forall x, In x l -> sel x = true -> f x = f y) ->
  map f (replace_first sel y l) = map f l.
Proof.
  intros A B f sel y l. induction l as [|a l IH]; simpl; intros H; [reflexivity|].
  destruct (sel a) eqn:E; simpl.
  - rewrite (H a (or_introl eq_refl) E). reflexivity.
  - rewrite IH; [reflexivity|]. intros x Hx. apply H. right. exact Hx.
Qed.

Lemma Forall_remove_first : forall (A : Type) (P : A -> Prop) (sel : A -> bool) (l : list A),
  Forall P l -> Forall P (remove_first sel l).
Proof.
  intros A P sel l H. rewrite Forall_forall in *. intros z Hz. apply H.
  eapply In_remove_first. exact Hz.
Qed.

Lemma Forall_replace_first : forall (A : Type) (P : A -> Prop) (sel : A -> bool) (y : A)
  (l : list A),
  Forall P l -> P y -> Forall P (replace_first sel y l).
Proof.
  intros A P sel y l H Hy. rewrite Forall_forall in *. intros z Hz.
  apply In_replace_first in Hz. destruct Hz as [-> | Hz]; [exact Hy | apply H; exact Hz].
Qed.

Lemma NoDup_map_snoc : forall (A B : Type) (f : A -> B) (l : list A) (y : A),
  NoDup (map f l) -> (forall x, In x l -> f x <> f y) -> NoDup (map f (l ++ [y])).
Proof.
  intros A B f l y Hnd Hy. rewrite map_app. apply NoDup_app.
  - exact Hnd.
  - simpl. constructor; [intros [] | constructor].
  - intros b Hb [<- | []]. apply in_map_iff in Hb. destruct Hb as (x & Hfx & Hx).
    exact (Hy x Hx Hfx).
Qed.

(** Replacing the user of an id by a user whose email no other user has
    keeps the emails distinct, as long as the ids are distinct. *)
Lemma emails_replace_first : forall (o : ObjectId) (u' : User) (l : list User),
  NoDup (map User_id l) ->
  NoDup (map email l) ->
  (forall x, In x l -> has_id_User o x = false -> email x <> email u') ->
  NoDup (map email (replace_first (has_id_User o) u' l)).
Proof.
  intros o u' l. induction l as [|a l IH]; simpl; intros Hid Hem Hother; [constructor|].
  inversion Hid as [|x xs Hida Hidl]; subst. inversion Hem as [|x xs Hema Heml]; subst.
  destruct (has_id_User o a) eqn:Ea; simpl.
  - constructor; [|exact Heml]. intros Hin. apply in_map_iff in Hin.
    destruct Hin as (y & Hy & Hyin).
    destruct (has_id_User o y) eqn:Ey.
    + apply Hida. unfold has_id_User in Ea, Ey. apply String.eqb_eq in Ea, Ey.
      apply in_map_iff. exists y. split; [congruence | exact Hyin].
    + exact (Hother y (or_intror Hyin) Ey Hy).
  - constructor.
    + intros Hin. apply in_map_iff in Hin. destruct Hin as (y & Hy & Hyin).
      apply In_replace_first in Hyin. destruct Hyin as [-> | Hyin].
      * exact (Hother a (or_introl eq_refl) Ea (eq_sym Hy)).
      * apply Hema. apply in_map_iff. exists y. split; assumption.
    + apply IH; try assumption. intros x Hx. apply Hother. right. exact Hx.
Qed.

Section WellFormed.

Variable L : Externals.

Lemma new_User_admitted : forall e body user,
  validate L userValidationSchema body = None ->
  new_User L e body = Some user ->
  admitted_user L user /\ User_id user = newId e.
Proof.
  intros e body user Hval Hnew.
  apply valid_user_body_fields in Hval.
  destruct Hval as (m & n & mail & p & x & q & g & ph & -> & Hn & Hn' & Hm & Hm' & Hm''
                    & Hp & Hp' & Hx & Hq & Hq' & Hg & Hg' & Hph & Hph' & _).
  rewrite (new_User_valid L e m n mail p x q g ph Hn Hm Hp Hx (coerced_is_cast L x q Hq) Hg Hph)
    in Hnew.
  injection Hnew as <-. split; [|reflexivity].
  unfold admitted_user. simpl. repeat split; assumption.
Qed.

Lemma User_set_admitted : forall body u u',
  validate L userValidationSchema body = None ->
  User_set L body u = Some u' ->
  admitted_user L u' /\ User_id u' = User_id u.
Proof.
  intros body u u' Hval Hset.
  apply valid_user_body_fields in Hval.
  destruct Hval as (m & n & mail & p & x & q & g & ph & -> & Hn & Hn' & Hm & Hm' & Hm''
                    & Hp & Hp' & Hx & Hq & Hq' & Hg & Hg' & Hph & Hph' & _).
  unfold User_set in Hset. simpl in Hset. rewrite Hn, Hm, Hp, Hx, Hg, Hph in Hset.
  simpl in Hset. rewrite (coerced_is_cast L x q Hq) in Hset. simpl in Hset.
  injection Hset as <-. split; [|reflexivity].
  unfold admitted_user. simpl. repeat split; assumption.
Qed.

Lemma new_Post_admitted : forall e body post,
  validate L postValidationSchema body = None ->
  new_Post L e body = Some post ->
  admitted_post post /\ Post_id post = newId e /\ date post = now e.
Proof.
  intros e body post Hval Hnew.
  destruct (valid_post_body L body Hval) as (m & t0 & c0 & u0 & Hb & _ & _ & _ & _ & Hd).
  apply valid_post_body_fields in Hval.
  destruct Hval as (m' & t & c & u & -> & Ht & Ht' & Hc & Hc' & Hu & Hu' & _).
  injection Hb as <-.
  unfold new_Post in Hnew. simpl in Hnew. rewrite Ht, Hc, Hu, Hd in Hnew. simpl in Hnew.
  destruct (castObjectId u) as [o|] eqn:Ho; simpl in Hnew; [|discriminate].
  injection Hnew as <-. split; [|split; reflexivity].
  unfold admitted_post. simpl. repeat split; try assumption.
  exact (proj1 (castObjectId_well_formed u o Ho)).
Qed.

Lemma Post_set_admitted : forall body p p',
  validate L postValidationSchema body = None ->
  Post_set L body p = Some p' ->
  admitted_post p' /\ Post_id p' = Post_id p /\ date p' = date p
  /\ body_prop body "title" = Some (JStr (title p'))
  /\ body_prop body "content" = Some (JStr (content p')).
Proof.
  intros body p p' Hval Hset.
  destruct (valid_post_body L body Hval) as (m & t0 & c0 & u0 & Hb & _ & _ & _ & _ & Hd).
  apply valid_post_body_fields in Hval.
  destruct Hval as (m' & t & c & u & -> & Ht & Ht' & Hc & Hc' & Hu & Hu' & _).
  injection Hb as <-.
  unfold Post_set in Hset. simpl in Hset. rewrite Ht, Hc, Hu, Hd in Hset. simpl in Hset.
  destruct (castObjectId u) as [o|] eqn:Ho; simpl in Hset; [|discriminate].
  injection Hset as <-. simpl. split; [|repeat split; assumption].
  unfold admitted_post. simpl. repeat split; try assumption.
  exact (proj1 (castObjectId_well_formed u o Ho)).
Qed.

(** Each request keeps the store well formed. *)
Lemma handle_well_formed : forall e st r,
  well_formed L st -> well_formed L (snd (handle L e st r)).
Proof.
  intros e st r ((Huid & Hpid) & Hem & Hus & Hps).
  destruct (handle L e st r) as [resp st'] eqn:H. simpl snd.
  assert (Hsame : well_formed L st) by (repeat split; assumption).
  destruct r; simpl in H; try (injection H as _ <-; exact Hsame).
  - destruct (signup_outcome L _ _ _ _ _ H)
      as [[-> _] | (user & Hval & Hnew & E1 & E2 & _ & ->)]; [exact Hsame|].
    destruct (new_User_admitted _ _ _ Hval Hnew) as [Hadm _].
    rewrite existsb_false_iff in E1, E2.
    unfold well_formed, ids_unique, emails_unique. simpl. repeat split.
    + apply NoDup_map_snoc; [exact Huid|]. intros x Hx. specialize (E1 x Hx).
      apply String.eqb_neq. exact E1.
    + exact Hpid.
    + apply NoDup_map_snoc; [exact Hem|]. intros x Hx. specialize (E2 x Hx). simpl in E2.
      apply String.eqb_neq. exact E2.
    + apply Forall_app. split; [exact Hus | constructor; [exact Hadm | constructor]].
    + exact Hps.
  - destruct (put_user_outcome L _ _ _ _ _ H)
      as [[-> _] | (o & u & u' & Hval & Ho & Hf & Hset & Hother & _ & ->)]; [exact Hsame|].
    destruct (User_set_admitted _ _ _ Hval Hset) as [Hadm Hid].
    apply find_some in Hf. destruct Hf as [Hin Hsel]. apply String.eqb_eq in Hsel.
    unfold well_formed, ids_unique, emails_unique. simpl. repeat split.
    + rewrite map_replace_first; [exact Huid|].
      intros x _ Hx. apply String.eqb_eq in Hx. congruence.
    + exact Hpid.
    + apply emails_replace_first; assumption.
    + apply Forall_replace_first; assumption.
    + exact Hps.
  - destruct (delete_user_outcome _ _ _ _ H) as [[-> _] | (o & u & _ & _ & _ & ->)];
      [exact Hsame|].
    unfold well_formed, ids_unique, emails_unique. simpl. repeat split.
    + apply NoDup_map_remove_first. exact Huid.
    + exact Hpid.
    + apply NoDup_map_remove_first. exact Hem.
    + apply Forall_remove_first. exact Hus.
    + exact Hps.
  - destruct (post_posts_outcome L _ _ _ _ _ H)
      as [[-> _] | (post & owner & Hval & Hnew & _ & _ & E1 & _ & ->)]; [exact Hsame|].
    destruct (new_Post_admitted _ _ _ Hval Hnew) as [Hadm _].
    rewrite existsb_false_iff in E1.
    unfold well_formed, ids_unique, emails_unique. simpl. repeat split.
    + exact Huid.
    + apply NoDup_map_snoc; [exact Hpid|]. intros x Hx. specialize (E1 x Hx).
      apply String.eqb_neq. exact E1.
    + exact Hem.
    + exact Hus.
    + apply Forall_app. split; [exact Hps | constructor; [exact Hadm | constructor]].
  - destruct (delete_post_outcome _ _ _ _ _ H) as [[-> _] | (o & p & _ & _ & _ & _ & ->)];
      [exact Hsame|].
    unfold well_formed, ids_unique, emails_unique. simpl. repeat split.
    + exact Huid.
    + apply NoDup_map_remove_first. exact Hpid.
    + exact Hem.
    + exact Hus.
    + apply Forall_remove_first. exact Hps.
  - destruct (put_post_outcome L _ _ _ _ _ H)
      as [[-> _] | (o & p & p' & Hval & Ho & Hf & _ & Hset & _ & ->)]; [exact Hsame|].
    destruct (Post_set_admitted _ _ _ Hval Hset) as (Hadm & Hid & _).
    apply find_some in Hf. destruct Hf as [Hin Hsel]. apply String.eqb_eq in Hsel.
    unfold well_formed, ids_unique, emails_unique. simpl. repeat split.
    + exact Huid.
    + rewrite map_replace_first; [exact Hpid|].
      intros x _ Hx. apply String.eqb_eq in Hx. congruence.
    + exact Hem.
    + exact Hus.
    + apply Forall_replace_first; assumption.
Qed.

End WellFormed.

(** Whatever requests the service has answered since the database was
    empty: the ids of the users are pairwise distinct, and so are the ids
    of the posts and the emails; every user has non-empty text fields, an
    email that Joi takes for an address and a whole age from 0 to the
    largest safe integer; every post has a non-empty title and content and
    a [userID] that is an ObjectId. *)
Lemma reachable_well_formed :
  forall (L : Externals) (st : store), reachable L st -> well_formed L st.
Proof.
  intros L st H. induction H as [|e st r Hr IH].
  - unfold well_formed, ids_unique, emails_unique, empty_store. simpl.
    repeat split; constructor.
  - apply handle_well_formed. exact IH.
Qed.

Lemma sample_store_reachable : reachable decimal_externals sample_store.
Proof.
  assert (E : snd (handle decimal_externals {| newId := id_d; now := 1000 |}
                (snd (handle decimal_externals {| newId := id_c; now := 3 |}
                   (snd (handle decimal_externals {| newId := id_b; now := 2 |}
                      (snd (handle decimal_externals {| newId := id_a; now := 1 |} empty_store
                              (POST_api_users_signup (user_body "Alice" "alice@example.com" 30))))
                      (POST_api_users_signup (user_body "ALBERT" "albert@example.com" 19))))
                   (POST_api_users_signup (user_body "Balrog" "balrog@example.com" 31))))
                (POST_api_posts (post_body "Hello" "First post" id_a)))
              = sample_store) by reflexivity.
  rewrite <- E. repeat apply reachable_handle. apply reachable_empty.
Defined.

Lemma reachable_well_formed_witness :
  reachable decimal_externals sample_store /\ well_formed decimal_externals sample_store.
Proof.
  split; [exact sample_store_reachable|].
  exact (reachable_well_formed decimal_externals sample_store sample_store_reachable).
Defined.

(** ** Requests one after the other *)

Lemma find_unique : forall (A : Type) (f : A -> string) (l : list A) (x : A),
  NoDup (map f l) -> In x l ->
  find (fun y => String.eqb (f y) (f x)) l = Some x.
Proof.
  intros A f l x. induction l as [|a l IH]; simpl; intros Hnd Hin; [contradiction|].
  inversion Hnd as [|b bs Hnotin Hnd']; subst.
  destruct (String.eqb (f a) (f x)) eqn:E.
  - destruct Hin as [-> | Hin]; [reflexivity|].
    apply String.eqb_eq in E. exfalso. apply Hnotin. rewrite E. apply in_map. exact Hin.
  - destruct Hin as [-> | Hin]; [rewrite String.eqb_refl in E; discriminate|].
    apply IH; assumption.
Qed.

Lemma find_snoc : forall (A : Type) (sel : A -> bool) (l : list A) (y : A),
  existsb sel l = false -> sel y = true -> find sel (l ++ [y]) = Some y.
Proof.
  intros A sel l y. induction l as [|a l IH]; simpl; intros H Hy.
  - rewrite Hy. reflexivity.
  - apply orb_false_iff in H. destruct H as [-> H]. apply IH; assumption.
Qed.

(** With distinct keys, dropping the first element of key [f x] drops
    [x] and nothing else, and no element of that key is left. *)
Lemma remove_first_unique : forall (A : Type) (f : A -> string) (l : list A) (x : A),
  NoDup (map f l) -> In x l ->
  (forall z, In z (remove_first (fun y => String.eqb (f y) (f x)) l) <-> In z l /\ z <> x)
  /\ find (fun y => String.eqb (f y) (f x))
       (remove_first (fun y => String.eqb (f y) (f x)) l) = None.
Proof.
  intros A f l x. induction l as [|a l IH]; simpl; intros Hnd Hin; [contradiction|].
  inversion Hnd as [|b bs Hnotin Hnd']; subst.
  destruct (String.eqb (f a) (f x)) eqn:E.
  - apply String.eqb_eq in E.
    assert (Hax : a = x).
    { destruct Hin as [H | H]; [exact H|]. exfalso. apply Hnotin. rewrite E.
      apply in_map. exact H. }
    subst a. split.
    + intros z. split.
      * intros Hz. split; [right; exact Hz|]. intros ->. apply Hnotin. apply in_map. exact Hz.
      * intros [[<- | Hz] Hne]; [congruence | exact Hz].
    + apply find_none_iff. intros z Hz. apply String.eqb_neq. intros Heq.
      apply Hnotin. rewrite <- Heq. apply in_map. exact Hz.
  - destruct Hin as [-> | Hin]; [rewrite String.eqb_refl in E; discriminate|].
    destruct (IH Hnd' Hin) as [IH1 IH2]. split.
    + intros z. simpl. rewrite IH1. split.
      * intros [<- | [Hz Hne]]; [|tauto]. split; [left; reflexivity|].
        intros ->. rewrite String.eqb_refl in E. discriminate.
      * intros [[<- | Hz] Hne]; [left; reflexivity | right; tauto].
    + simpl. rewrite E. exact IH2.
Qed.

(** A user that has signed up is found under the generated id, with no
    populated path, and closes the list of all users. *)
Lemma signup_then_profile :
  forall (L : Externals) (e : env) (st st' : store) (body : reqbody) (r : response),
    post_api_users_signup L e st body = (r, st') ->
    status r = 200%Z ->
    is_ObjectId (newId e) = true ->
    exists user,
      r = send (Doc (UserDoc user))
      /\ User_id user = newId e
      /\ get_api_users_id_profile st' (newId e) = send (Populated (UserDoc user) [])
      /\ get_api_users st' = send (Users (users st ++ [user])).
Proof.
  intros L e st st' body r H Hs Hid.
  destruct (signup_outcome L _ _ _ _ _ H)
    as [[_ [Hr | Hr]] | (user & Hval & Hnew & E1 & _ & -> & ->)];
    try (rewrite Hr in Hs; discriminate).
  destruct (new_User_admitted L _ _ _ Hval Hnew) as [_ Hnid].
  exists user. split; [reflexivity|]. split; [exact Hnid|]. split; [|reflexivity].
  unfold get_api_users_id_profile, User_findById.
  rewrite (castObjectId_toString _ Hid). simpl. rewrite Hnid in E1.
  rewrite (find_snoc _ _ _ _ E1); [reflexivity|].
  unfold has_id_User. rewrite Hnid. apply String.eqb_refl.
Qed.

Lemma signup_then_profile_witness :
  post_api_users_signup decimal_externals sample_env sample_store
    (user_body "Carol" "carol@example.com" 25)
  = (fst (post_api_users_signup decimal_externals sample_env sample_store
            (user_body "Carol" "carol@example.com" 25)),
     snd (post_api_users_signup decimal_externals sample_env sample_store
            (user_body "Carol" "carol@example.com" 25)))
  /\ is_ObjectId (newId sample_env) = true
  /\ exists user,
       userName user = "Carol"
       /\ get_api_users_id_profile
            (snd (post_api_users_signup decimal_externals sample_env sample_store
                    (user_body "Carol" "carol@example.com" 25)))
            (newId sample_env)
          = send (Populated (UserDoc user) []).
Proof.
  split; [reflexivity|]. split; [reflexivity|].
  destruct (signup_then_profile decimal_externals sample_env sample_store _
              (user_body "Carol" "carol@example.com" 25) _ eq_refl eq_refl eq_refl)
    as (user & Hr & _ & Hp & _).
  exists user. split; [|exact Hp].
  vm_compute in Hr. injection Hr as <-. reflexivity.
Defined.

(** The owner's DELETE removes the post and nothing else: the answer is
    the post, afterwards the collection holds the other posts only, the
    users are untouched, and the same request is answered 404. *)
Lemma owner_deletes_post :
  forall (st : store) (id : string) (body : reqbody) (p : Post),
    NoDup (map Post_id (posts st)) ->
    Post_findById st id = Ok (Some p) ->
    body_prop body "userID" = Some (JStr (userID p)) ->
    exists st',
      delete_api_posts_id st id body = (send (Doc (PostDoc p)), st')
      /\ users st' = users st
      /\ (forall q, In q (posts st') <-> In q (posts st) /\ q <> p)
      /\ delete_api_posts_id st' id body = (send_status 404 "Post not found", st').
Proof.
  intros st id body p Hnd Hp Hu. unfold delete_api_posts_id. rewrite Hp.
  unfold not_owner. rewrite Hu, String.eqb_refl. simpl.
  eexists. split; [reflexivity|]. split; [reflexivity|].
  unfold Post_findById in *. destruct (castObjectId id) as [o|]; [|discriminate].
  injection Hp as Hp. apply find_some in Hp. destruct Hp as [Hin Hsel].
  apply String.eqb_eq in Hsel. subst o. simpl.
  destruct (remove_first_unique Post Post_id (posts st) p Hnd Hin) as [H1 H2].
  split; [exact H1|]. unfold has_id_Post. rewrite H2. reflexivity.
Qed.

Lemma owner_deletes_post_witness :
  NoDup (map Post_id (posts sample_store))
  /\ Post_findById sample_store id_d = Ok (Some post_of_alice)
  /\ body_prop (BObj [("userID", JStr id_a)]) "userID" = Some (JStr (userID post_of_alice))
  /\ exists st',
       delete_api_posts_id sample_store id_d (BObj [("userID", JStr id_a)])
       = (send (Doc (PostDoc post_of_alice)), st')
       /\ delete_api_posts_id st' id_d (BObj [("userID", JStr id_a)])
          = (send_status 404 "Post not found", st').
Proof.
  assert (Hnd : NoDup (map Post_id (posts sample_store))).
  { simpl. constructor; [intros [] | constructor]. }
  split; [exact Hnd|]. split; [reflexivity|]. split; [reflexivity|].
  destruct (owner_deletes_post sample_store id_d (BObj [("userID", JStr id_a)])
              post_of_alice Hnd eq_refl eq_refl) as (st' & H1 & _ & _ & H2).
  exists st'. split; assumption.
Defined.

Lemma populate_userID : forall st p,
  populate st postSchema (Post_id_at p) "userID"
  = [("userID", option_map UserDoc (find (has_id_User (userID p)) (users st)))].
Proof.
  intros st p. reflexivity.
Qed.

(** The populated listing of posts: the posts in collection order, each
    with the user of its [userID], or with null when no user has that
    id. *)
Lemma withUsers_lists_owners :
  forall st : store,
    NoDup (map User_id (users st)) ->
    exists l,
      get_api_posts_withUsers st = send (PopulatedList l)
      /\ map fst l = map PostDoc (posts st)
      /\ (forall p u, In p (posts st) -> In u (users st) -> User_id u = userID p ->
            In (PostDoc p, [("userID", Some (UserDoc u))]) l)
      /\ (forall p, In p (posts st) -> (forall u, In u (users st) -> User_id u <> userID p) ->
            In (PostDoc p, [("userID", None)]) l).
Proof.
  intros st Hnd. unfold get_api_posts_withUsers. eexists. split; [reflexivity|].
  split; [rewrite map_map; reflexivity|]. split.
  - intros p u Hp Hu Hid. apply in_map_iff. exists p. split; [|exact Hp].
    rewrite populate_userID. unfold has_id_User. rewrite <- Hid.
    rewrite (find_unique User User_id (users st) u Hnd Hu). reflexivity.
  - intros p Hp Hnone. apply in_map_iff. exists p. split; [|exact Hp].
    rewrite populate_userID. rewrite find_no_user; [reflexivity|].
    intros u Hu Heq. apply (Hnone u Hu). congruence.
Qed.

Lemma withUsers_lists_owners_witness :
  NoDup (map User_id (users sample_store))
  /\ exists l,
       get_api_posts_withUsers sample_store = send (PopulatedList l)
       /\ In (PostDoc post_of_alice, [("userID", Some (UserDoc alice))]) l.
Proof.
  assert (Hnd : NoDup (map User_id (users sample_store))).
  { simpl. repeat (constructor; [simpl; intuition discriminate|]). constructor. }
  split; [exact Hnd|].
  destruct (withUsers_lists_owners sample_store Hnd) as (l & Hl & _ & Hown & _).
  exists l. split; [exact Hl|].
  apply Hown; [left; reflexivity | left; reflexivity | reflexivity].
Defined.

(** The deletion of a user removes that user only and no post: afterwards
    the profile of the id is answered 404, and each post of the user is
    still listed, its [userID] populated with null. *)
Lemma deleted_user_leaves_posts :
  forall (st : store) (id : string) (u : User),
    NoDup (map User_id (users st)) ->
    User_findById st id = Ok (Some u) ->
    exists st' l,
      delete_api_users_id st id = (send (Doc (UserDoc u)), st')
      /\ posts st' = posts st
      /\ (forall x, In x (users st') <-> In x (users st) /\ x <> u)
      /\ get_api_users_id_profile st' id = send_status 404 "User not found"
      /\ get_api_posts_withUsers st' = send (PopulatedList l)
      /\ (forall p, In p (posts st) -> userID p = User_id u ->
            In (PostDoc p, [("userID", None)]) l).
Proof.
  intros st id u Hnd Hu. unfold User_findById in Hu.
  destruct (castObjectId id) as [o|] eqn:Ho; [|discriminate].
  injection Hu as Hu. pose proof Hu as Hfind.
  apply find_some in Hu. destruct Hu as [Hin Hsel]. apply String.eqb_eq in Hsel. subst o.
  destruct (remove_first_unique User User_id (users st) u Hnd Hin) as [H1 H2].
  unfold delete_api_users_id, User_findByIdAndDelete. rewrite Ho, Hfind.
  eexists. eexists. split; [reflexivity|]. simpl. split; [reflexivity|].
  split; [exact H1|]. split.
  - unfold get_api_users_id_profile, User_findById. rewrite Ho. simpl.
    unfold has_id_User. rewrite H2. reflexivity.
  - unfold get_api_posts_withUsers. simpl. split; [reflexivity|].
    intros p Hp Hid. apply in_map_iff. exists p. split; [|exact Hp].
    rewrite populate_userID. simpl. unfold has_id_User. rewrite Hid, H2. reflexivity.
Qed.

Lemma deleted_user_leaves_posts_witness :
  NoDup (map User_id (users sample_store))
  /\ User_findById sample_store id_a = Ok (Some alice)
  /\ exists st' l,
       delete_api_users_id sample_store id_a = (send (Doc (UserDoc alice)), st')
       /\ get_api_users_id_profile st' id_a = send_status 404 "User not found"
       /\ get_api_posts_withUsers st' = send (PopulatedList l)
       /\ In (PostDoc post_of_alice, [("userID", None)]) l.
Proof.
  assert (Hnd : NoDup (map User_id (users sample_store))).
  { simpl. repeat (constructor; [simpl; intuition discriminate|]). constructor. }
  split; [exact Hnd|]. split; [reflexivity|].
  destruct (deleted_user_leaves_posts sample_store id_a alice Hnd eq_refl)
    as (st' & l & H1 & _ & _ & H2 & H3 & H4).
  exists st', l. repeat (split; [assumption|]).
  apply H4; [left; reflexivity | reflexivity].
Defined.

(** A valid update of a stored user: when no other user has the new
    email, the answer is the user with the body's fields under the same
    id, stored in place of the old one; when another user has it, the
    unique index refuses the write and the answer is 500. *)
Lemma put_user_updates_or_conflicts :
  forall (L : Externals) (st : store) (id : string) (body : reqbody) (u : User) (mail : string),
    validate L userValidationSchema body = None ->
    User_findById st id = Ok (Some u) ->
    body_prop body "email" = Some (JStr mail) ->
    ((forall x, In x (users st) -> User_id x <> User_id u -> email x <> mail) ->
     exists u',
       put_api_users_id L st id body
       = (send (Doc (UserDoc u')),
          {| users := replace_first (has_id_User (User_id u)) u' (users st);
             posts := posts st |})
       /\ User_id u' = User_id u /\ email u' = mail
       /\ body_prop body "userName" = Some (JStr (userName u'))
       /\ body_prop body "password" = Some (JStr (password u'))
       /\ bind (body_prop body "age") (cast_Number L) = Some (age u')
       /\ body_prop body "gender" = Some (JStr (gender u'))
       /\ body_prop body "phone" = Some (JStr (phone u')))
    /\ ((exists x, In x (users st) /\ User_id x <> User_id u /\ email x = mail) ->
        put_api_users_id L st id body = (server_error, st)).
Proof.
  intros L st id body u mail Hval Hu Hmail.
  unfold put_api_users_id, User_findByIdAndUpdate. rewrite Hval.
  unfold User_findById in Hu. destruct (castObjectId id) as [o|]; [|discriminate].
  injection Hu as Hu. rewrite Hu.
  apply find_some in Hu. destruct Hu as [Hin Hsel]. apply String.eqb_eq in Hsel. subst o.
  apply valid_user_body_fields in Hval.
  destruct Hval as (m & n & mail' & p & x & q & g & ph & -> & Hn & _ & Hm & _ & _
                    & Hp & _ & Hx & Hq & _ & Hg & _ & Hph & _ & _).
  simpl in Hmail. rewrite Hm in Hmail. injection Hmail as ->.
  unfold User_set. simpl. rewrite Hn, Hm, Hp, Hx, Hg, Hph. simpl.
  rewrite (coerced_is_cast L x q Hq). simpl. split.
  - intros Hfree.
    assert (E : existsb (fun x0 => negb (has_id_User (User_id u) x0)
                                   && String.eqb (email x0) mail) (users st) = false).
    { apply existsb_false_iff. intros x0 Hx0. unfold has_id_User.
      destruct (String.eqb (User_id x0) (User_id u)) eqn:Eid; [reflexivity|]. simpl.
      apply String.eqb_neq. apply Hfree; [exact Hx0|]. apply String.eqb_neq. exact Eid. }
    rewrite E. eexists. split; [reflexivity|]. simpl. repeat split.
  - intros (x0 & Hx0 & Hid & Hem).
    assert (E : existsb (fun x1 => negb (has_id_User (User_id u) x1)
                                   && String.eqb (email x1) mail) (users st) = true).
    { apply existsb_exists. exists x0. split; [exact Hx0|]. unfold has_id_User.
      apply String.eqb_neq in Hid. rewrite Hid. simpl. apply String.eqb_eq. exact Hem. }
    rewrite E. reflexivity.
Qed.

Lemma put_user_updates_or_conflicts_witness :
  validate decimal_externals userValidationSchema (user_body "Al" "al@example.com" 20) = None
  /\ User_findById sample_store id_b = Ok (Some albert)
  /\ (exists u',
        fst (put_api_users_id decimal_externals sample_store id_b
               (user_body "Al" "al@example.com" 20)) = send (Doc (UserDoc u'))
        /\ User_id u' = id_b /\ email u' = "al@example.com")
  /\ put_api_users_id decimal_externals sample_store id_b
       (user_body "Al" "alice@example.com" 20) = (server_error, sample_store).
Proof.
  split; [reflexivity|]. split; [reflexivity|]. split.
  - destruct (proj1 (put_user_updates_or_conflicts decimal_externals sample_store id_b
                       (user_body "Al" "al@example.com" 20) albert "al@example.com"
                       eq_refl eq_refl eq_refl)) as (u' & Hr & Hid & Hm & _).
    + intros x [<- | [<- | [<- | []]]] _; discriminate.
    + exists u'. rewrite Hr. repeat split; assumption.
  - apply (proj2 (put_user_updates_or_conflicts decimal_externals sample_store id_b
                    (user_body "Al" "alice@example.com" 20) albert "alice@example.com"
                    eq_refl eq_refl eq_refl)).
    exists alice. split; [left; reflexivity|]. split; [discriminate | reflexivity].
Defined.

(** The owner's valid update always succeeds: the post keeps its id, its
    owner and its date and takes the title and the content of the body;
    the users are untouched. *)
Lemma owner_updates_post :
  forall (L : Externals) (st : store) (id : string) (body : reqbody) (p : Post),
    validate L postValidationSchema body = None ->
    Post_findById st id = Ok (Some p) ->
    body_prop body "userID" = Some (JStr (userID p)) ->
    is_ObjectId (userID p) = true ->
    exists t c,
      body_prop body "title" = Some (JStr t)
      /\ body_prop body "content" = Some (JStr c)
      /\ put_api_posts_id L st id body
         = (send (Doc (PostDoc {| Post_id := Post_id p; title := t; content := c;
                                  userID := userID p; date := date p |})),
            {| users := users st;
               posts := replace_first (has_id_Post (Post_id p))
                          {| Post_id := Post_id p; title := t; content := c;
                             userID := userID p; date := date p |} (posts st) |}).
Proof.
  intros L st id body p Hval Hp Hu Hid.
  unfold put_api_posts_id. rewrite Hval, Hp.
  unfold not_owner. rewrite Hu, String.eqb_refl. simpl.
  destruct (valid_post_body L body Hval) as (m & t & c & u & -> & Ht & Hc & Hu' & _ & Hd).
  simpl in Hu. rewrite Hu' in Hu. injection Hu as ->.
  exists t, c. split; [exact Ht|]. split; [exact Hc|].
  unfold Post_set. simpl. rewrite Ht, Hc, Hu', Hd. simpl.
  rewrite (castObjectId_toString _ Hid). reflexivity.
Qed.

Lemma owner_updates_post_witness :
  validate decimal_externals postValidationSchema (post_body "New" "Text" id_a) = None
  /\ Post_findById sample_store id_d = Ok (Some post_of_alice)
  /\ is_ObjectId (userID post_of_alice) = true
  /\ exists t c,
       put_api_posts_id decimal_externals sample_store id_d (post_body "New" "Text" id_a)
       = (send (Doc (PostDoc {| Post_id := id_d; title := t; content := c;
                                userID := id_a; date := 1000 |})),
          {| users := users sample_store;
             posts := [ {| Post_id := id_d; title := t; content := c;
                           userID := id_a; date := 1000 |} ] |}).
Proof.
  split; [reflexivity|]. split; [reflexivity|]. split; [reflexivity|].
  destruct (owner_updates_post decimal_externals sample_store id_d
              (post_body "New" "Text" id_a) post_of_alice eq_refl eq_refl eq_refl eq_refl)
    as (t & c & _ & _ & Hr).
  exists t, c. exact Hr.
Defined.




Lemma valid_user_body_exactly_witness :
  validate decimal_externals userValidationSchema (user_body "Carol" "carol@example.com" 25)
  = None.
Proof.
  apply (proj2 (valid_user_body_exactly decimal_externals _)).
  exists [ ("userName", JStr "Carol"); ("email", JStr "carol@example.com");
           ("password", JStr "secret"); ("age", JNum (num_of_Z 25)); ("gender", JStr "f");
           ("phone", JStr "555") ],
    "Carol", "carol@example.com", "secret", (JNum (num_of_Z 25)), (inject_Z 25), "f", "555".
  repeat (split; [reflexivity || discriminate|]).
  split; [exists (inject_Z 25), 25%Z; repeat split; try reflexivity; vm_compute; discriminate|].
  repeat (split; [reflexivity || discriminate|]).
  intros k Hk. exact Hk.
Defined.

Lemma valid_post_body_exactly_witness :
  validate decimal_externals postValidationSchema (post_body "T" "C" "anything") = None.
Proof.
  apply (proj2 (valid_post_body_exactly decimal_externals _)).
  exists [ ("title", JStr "T"); ("content", JStr "C"); ("userID", JStr "anything") ],
    "T", "C", "anything".
  repeat (split; [reflexivity || discriminate|]).
  intros k [<- | [<- | [<- | []]]]; auto.
Defined.
